(** * OctoFace: the GitHub publication workflow

    A shallow embedding of [octoface/github.py], [octoface/utils.py] and the
    commands of [octoface/cli.py].

    Python values are embedded as the type [value]; functions that may raise
    return [exc]; functions that talk to GitHub run in the monad [M], which
    threads the history of requests made so far and collects the requests a
    computation issues.  The remote side is a function [respond] from the
    history and a request to a reply, so every statement holds for every
    behaviour of the service.  Console output is presentation and is left out
    of the GitHub layer; the command layer keeps the messages it prints.
    The two functions that start programs, [check_credentials] and
    [setup_w3], have a layer of their own.

    The file has three parts: the embedding, the properties (C1 to C10 of
    the specification with the lemmas they share, then the further
    properties X1 to X30), and runs of the program on sample environments. *)

From stdpp Require Import base list strings pretty.
From Stdlib Require Import ZArith Ascii Lia.

Set Warnings "-register-all".
Open Scope string_scope.
Open Scope Z_scope.
Open Scope list_scope.

(** ** Python values *)

(** The values the program handles are the ones JSON can carry.  Numbers are
    integers here; the one float of the program ([size_mb]) is computed by the
    environment and carried as an opaque value. *)
Inductive value : Type :=
| VNone
| VBool (b : bool)
| VInt (n : Z)
| VStr (s : string)
| VList (l : list value)
| VDict (d : list (string * value)).

Inductive pyexn : Type :=
| TypeError
| AttributeError
| KeyError
| ValueError
| JSONDecodeError
| RequestException
| OSError.

(** The outcome of evaluating an expression: a value, or a raised exception. *)
Inductive exc (A : Type) : Type :=
| Val (a : A)
| Exn (e : pyexn).
Arguments Val {A} a.
Arguments Exn {A} e.

Definition exc_bind {A B} (x : exc A) (f : A -> exc B) : exc B :=
  match x with
  | Val a => f a
  | Exn e => Exn e
  end.

(** [bool(v)] *)
Definition truthy (v : value) : bool :=
  match v with
  | VNone => false
  | VBool b => b
  | VInt n => negb (n =? 0)
  | VStr s => negb (String.eqb s "")
  | VList l => match l with [] => false | _ => true end
  | VDict d => match d with [] => false | _ => true end
  end.

(** [a or b] *)
Definition py_or (a b : value) : value := if truthy a then a else b.

(** [v == s] for a string [s]: only an equal string compares equal. *)
Definition py_eq_str (v : value) (s : string) : bool :=
  match v with
  | VStr t => String.eqb t s
  | _ => false
  end.

(** A dict keeps its keys in insertion order, each key once. *)
Fixpoint dict_lookup (k : string) (d : list (string * value)) : option value :=
  match d with
  | [] => None
  | (k', v) :: rest => if String.eqb k' k then Some v else dict_lookup k rest
  end.

(** [d[k] = x]: overwrite in place, or add at the end. *)
Fixpoint dict_set (k : string) (x : value) (d : list (string * value))
  : list (string * value) :=
  match d with
  | [] => [(k, x)]
  | (k', v) :: rest =>
      if String.eqb k' k then (k', x) :: rest else (k', v) :: dict_set k x rest
  end.

(** [v.get(k, default)]; only a dict has the method. *)
Definition py_get (v : value) (k : string) (default : value) : exc value :=
  match v with
  | VDict d => Val (match dict_lookup k d with Some x => x | None => default end)
  | _ => Exn AttributeError
  end.

(** [v[k]] for a string key. *)
Definition py_getitem (v : value) (k : string) : exc value :=
  match v with
  | VDict d => match dict_lookup k d with Some x => Val x | None => Exn KeyError end
  | _ => Exn TypeError
  end.

(** [for x in v]: the elements a loop over [v] visits. *)
Definition py_iter (v : value) : exc (list value) :=
  match v with
  | VList l => Val l
  | VDict d => Val (map (fun kv => VStr (fst kv)) d)
  | VStr s => Val (map (fun c => VStr (String c "")) (String.list_ascii_of_string s))
  | _ => Exn TypeError
  end.

(** ** Strings *)

Definition dquote : string := String "034"%char "".
Definition newline : string := String "010"%char "".

(** A text given line by line, each line ended by a newline. *)
Definition text_of_lines (ls : list string) : string :=
  fold_right (fun l acc => l +:+ newline +:+ acc) "" ls.

Definition lower_ascii (c : ascii) : ascii :=
  let n := nat_of_ascii c in
  if ((65 <=? n) && (n <=? 90))%nat then ascii_of_nat (n + 32) else c.

Fixpoint map_chars (f : ascii -> ascii) (s : string) : string :=
  match s with
  | EmptyString => EmptyString
  | String c rest => String (f c) (map_chars f rest)
  end.

(** [s.lower()], on the ASCII letters. *)
Definition str_lower (s : string) : string := map_chars lower_ascii s.

(** [s.replace(" ", "-")] *)
Definition replace_space_dash (s : string) : string :=
  map_chars (fun c => if Ascii.eqb c " "%char then "-"%char else c) s.

(** [model_name.lower().replace(" ", "-")] *)
Definition slug (model_name : string) : string :=
  replace_space_dash (str_lower model_name).

Definition is_space (c : ascii) : bool :=
  let n := nat_of_ascii c in
  (((9 <=? n) && (n <=? 13)) || ((28 <=? n) && (n <=? 32)))%nat.

Fixpoint lstrip (s : string) : string :=
  match s with
  | EmptyString => EmptyString
  | String c rest => if is_space c then lstrip rest else s
  end.

Fixpoint rstrip (s : string) : string :=
  match s with
  | EmptyString => EmptyString
  | String c rest =>
      match rstrip rest with
      | EmptyString => if is_space c then EmptyString else String c EmptyString
      | r => String c r
      end
  end.

(** [s.strip()] *)
Definition str_strip (s : string) : string := rstrip (lstrip s).

(** [s.split(",")]: the pieces between commas; never an empty list. *)
Fixpoint split_comma (s : string) : list string :=
  match s with
  | EmptyString => [EmptyString]
  | String c rest =>
      if Ascii.eqb c ","%char then EmptyString :: split_comma rest
      else match split_comma rest with
           | [] => [String c EmptyString]
           | piece :: pieces => String c piece :: pieces
           end
  end.

(** [[tag.strip() for tag in tags.split(",")]] *)
Definition tags_list_of (tags : string) : list value :=
  map (fun tag => VStr (str_strip tag)) (split_comma tags).

(** [sep.join(pieces)] *)
Definition str_join (sep : string) (pieces : list string) : string :=
  String.concat sep pieces.

(** ** The catalog merge, as data *)

(** The loop of [update_model_map] over [enumerate(model_map["models"])]:
    the index of the first entry whose ["path"] equals [p].  An entry that is
    not a dict has no [get] method, and the loop raises when it reaches it. *)
Fixpoint find_model (p : string) (models : list value) (i : nat)
  : exc (option nat) :=
  match models with
  | [] => Val None
  | model :: rest =>
      match py_get model "path" (VStr "") with
      | Exn e => Exn e
      | Val model_path =>
          if py_eq_str model_path p then Val (Some i)
          else find_model p rest (S i)
      end
  end.

(** [model_map["models"][i] = model_entry] on a match, [append] otherwise. *)
Definition merge_models (models : list value) (model_entry : value)
  (p : string) : exc (list value) :=
  match find_model p models 0%nat with
  | Exn e => Exn e
  | Val (Some i) => Val (<[i := model_entry]> models)
  | Val None => Val (models ++ [model_entry])
  end.

(** The same step on the parsed file: [model_map] must be a dict whose
    ["models"] is a list.  An empty dict or string under ["models"] passes the
    loop and fails at [append]; every other non-list fails in the loop. *)
Definition merge_model_map (model_map model_entry : value) (p : string)
  : exc value :=
  match model_map with
  | VDict d =>
      match dict_lookup "models" d with
      | None => Exn KeyError
      | Some (VList models) =>
          exc_bind (merge_models models model_entry p)
            (fun models' => Val (VDict (dict_set "models" (VList models') d)))
      | Some (VNone | VBool _ | VInt _) => Exn TypeError
      | Some (VStr _ | VDict _) => Exn AttributeError
      end
  | _ => Exn TypeError
  end.

(** [{"models": []}] *)
Definition empty_model_map : value := VDict [("models", VList [])].

(** ** The Python library and the environment *)

(** Library functions the program calls; they are not part of the
    repository and are taken as given. *)
Class PyLib : Type := {
  (** [str(v)] for a list or a dict *)
  repr : value -> string;
  (** [json.dumps(v, indent=2)] *)
  json_dumps : value -> string;
  (** [json.loads(s)]; [None] stands for [json.JSONDecodeError] *)
  json_loads : string -> option value;
  (** [base64.b64encode(s.encode()).decode()] *)
  b64encode : string -> string;
  (** [base64.b64decode(v).decode("utf-8")]; raises on a value that is not
      base64 text and on bytes that are not UTF-8 *)
  b64decode_utf8 : value -> exc string;
  (** [str(e)] for a caught exception *)
  exn_message : pyexn -> string
}.

(** What an f-string puts in place of [{v}]. *)
Definition format_value `{PyLib} (v : value) : string :=
  match v with
  | VStr s => s
  | VNone => "None"
  | VBool true => "True"
  | VBool false => "False"
  | VInt n => pretty n
  | _ => repr v
  end.

Definition REPO_OWNER : string := "octofacehub".
Definition REPO_NAME : string := "octofacehub.github.io".
Definition API_BASE : string := "https://api.github.com".

(** The URLs the program builds, by shape; [url] gives the text. *)
Inductive endpoint : Type :=
| ep_user
| ep_repo (owner repo : string)
| ep_forks (owner repo : string)
| ep_branch (owner repo branch : string)
| ep_ref (owner repo branch : string)
| ep_refs (owner repo : string)
| ep_contents (owner repo path : string) (ref : option string)
| ep_pulls (owner repo : string).

Definition url (e : endpoint) : string :=
  match e with
  | ep_user => API_BASE +:+ "/user"
  | ep_repo o r => API_BASE +:+ "/repos/" +:+ o +:+ "/" +:+ r
  | ep_forks o r => API_BASE +:+ "/repos/" +:+ o +:+ "/" +:+ r +:+ "/forks"
  | ep_branch o r b =>
      API_BASE +:+ "/repos/" +:+ o +:+ "/" +:+ r +:+ "/branches/" +:+ b
  | ep_ref o r b =>
      API_BASE +:+ "/repos/" +:+ o +:+ "/" +:+ r +:+ "/git/refs/heads/" +:+ b
  | ep_refs o r => API_BASE +:+ "/repos/" +:+ o +:+ "/" +:+ r +:+ "/git/refs"
  | ep_contents o r p None =>
      API_BASE +:+ "/repos/" +:+ o +:+ "/" +:+ r +:+ "/contents/" +:+ p
  | ep_contents o r p (Some b) =>
      API_BASE +:+ "/repos/" +:+ o +:+ "/" +:+ r +:+ "/contents/" +:+ p
        +:+ "?ref=" +:+ b
  | ep_pulls o r => API_BASE +:+ "/repos/" +:+ o +:+ "/" +:+ r +:+ "/pulls"
  end.

(** What the program does to the outside: the three [requests] calls and
    [time.sleep] of the GitHub layer, and for the command layer the lines it
    prints and the files it writes. *)
Inductive event : Type :=
| Get (e : endpoint) (headers : value)
| Post (e : endpoint) (headers : value) (json : option value)
| Put (e : endpoint) (headers : value) (json : value)
| Sleep (seconds : Z)
| Print (line : string)
| MakeDirs (path : string)
| WriteFile (path content : string).

Record response : Type := {
  status_code : Z;
  (** [response.json()]; [None] when the body is not JSON *)
  json_body : option value;
  text : string
}.

Inductive reply : Type :=
| Raised (e : pyexn)
| Replied (r : response).

(** The environment of one run.  [respond] answers a request given the
    requests made before it, so the remote side may change state. *)
Class World : Type := {
  (** [os.environ.get(name)] *)
  environ_get : string -> option string;
  respond : list event -> event -> reply;
  (** [int(time.time())] *)
  time_time : Z;
  (** [datetime.datetime.now(datetime.timezone.utc).isoformat()] *)
  utc_now_isoformat : string;
  (** the [os.walk] sum of file sizes, in MB rounded to two places *)
  directory_size_mb : value -> exc value;
  (** [octoface.uploader.generate_model_tree], not among the sources,
      applied to its positional arguments *)
  generate_model_tree : list value -> exc value;
  (** [octoface.uploader.upload_to_ipfs], not among the sources *)
  upload_to_ipfs : value -> exc value;
  (** [octoface.downloader.download_model], not among the sources; the
      second argument is the optional output directory *)
  download_model : string -> option string -> exc value;
  (** [click.prompt(text, default="")] *)
  click_prompt : string -> string;
  (** [os.path.basename(os.path.abspath(path))] *)
  basename_abspath : string -> string;
  (** whether [os.makedirs] or a file write fails *)
  fs_error : list event -> event -> option pyexn
}.

(** ** The request monad *)

(** A computation reads the history and yields its outcome together with
    the events it adds. *)
Definition M (A : Type) : Type := list event -> exc A * list event.

Definition ret {A} (a : A) : M A := fun _ => (Val a, []).

Definition bind {A B} (m : M A) (f : A -> M B) : M B :=
  fun h =>
    match m h with
    | (Val a, o1) =>
        match f a (h ++ o1) with
        | (r, o2) => (r, o1 ++ o2)
        end
    | (Exn e, o1) => (Exn e, o1)
    end.

(** A pure expression that may raise. *)
Definition lift {A} (x : exc A) : M A := fun _ => (x, []).

(** [try: m except Exception: handler] *)
Definition try_except {A} (m : M A) (handler : pyexn -> M A) : M A :=
  fun h =>
    match m h with
    | (Val a, o1) => (Val a, o1)
    | (Exn e, o1) =>
        match handler e (h ++ o1) with
        | (r, o2) => (r, o1 ++ o2)
        end
    end.

Declare Scope monad_scope.
Delimit Scope monad_scope with monad.
Notation "x <- c1 ;; c2" := (bind c1 (fun x => c2))
  (at level 100, c1 at next level, right associativity) : monad_scope.
Open Scope monad_scope.

Section Requests.
Context `{W : World}.

Definition perform (ev : event) : M response :=
  fun h =>
    match respond h ev with
    | Raised e => (Exn e, [ev])
    | Replied r => (Val r, [ev])
    end.

Definition requests_get (e : endpoint) (headers : value) : M response :=
  perform (Get e headers).

Definition requests_post (e : endpoint) (headers : value)
  (json : option value) : M response :=
  perform (Post e headers json).

Definition requests_put (e : endpoint) (headers : value) (json : value)
  : M response :=
  perform (Put e headers json).

(** [time.sleep(seconds)] *)
Definition time_sleep (seconds : Z) : M unit :=
  fun _ => (Val tt, [Sleep seconds]).

(** [console.print(line)] *)
Definition console_print (line : string) : M unit :=
  fun _ => (Val tt, [Print line]).

(** [os.makedirs(path, exist_ok=True)], and [open(path, "w")] with one
    write. *)
Definition file_system (ev : event) : M unit :=
  fun h =>
    match fs_error h ev with
    | Some e => (Exn e, [ev])
    | None => (Val tt, [ev])
    end.

(** [os.environ.get(name)] as a value *)
Definition os_environ_get (name : string) : value :=
  match environ_get name with
  | Some s => VStr s
  | None => VNone
  end.
End Requests.

(** [response.json()] *)
Definition response_json (r : response) : exc value :=
  match json_body r with
  | Some v => Val v
  | None => Exn JSONDecodeError
  end.

(** [response.raise_for_status()] *)
Definition raise_for_status (r : response) : exc unit :=
  if (400 <=? status_code r) && (status_code r <? 600)
  then Exn RequestException else Val tt.

(** [x in [200, 201]] and the like *)
Definition status_in (codes : list Z) (x : Z) : bool :=
  existsb (Z.eqb x) codes.

Notation "x <~ c1 ;; c2" := (exc_bind c1 (fun x => c2))
  (at level 100, c1 at next level, right associativity) : monad_scope.

(** ** [octoface/utils.py] *)

Section Utils.
Context `{L : PyLib} `{W : World}.

(** The two headers every request carries. *)
Definition auth_headers (github_token : value) : value :=
  VDict [("Authorization", VStr ("token " +:+ format_value github_token));
         ("Accept", VStr "application/vnd.github.v3+json")].

Definition get_github_username : M value :=
  let github_token := os_environ_get "GITHUB_API_TOKEN" in
  if negb (truthy github_token) then ret VNone
  else
    try_except
      (let headers := auth_headers github_token in
       response <- requests_get ep_user headers ;;
       _ <- lift (raise_for_status response) ;;
       body <- lift (response_json response) ;;
       lift (py_get body "login" VNone))
      (fun _ => ret VNone).

(** The dict literal of [generate_model_metadata]. *)
Definition metadata_literal (name : string) (description : value)
  (github_username tags cid : value) (current_time : string)
  : list (string * value) :=
  [("name", VStr name);
   ("description", py_or description (VStr ""));
   ("author", github_username);
   ("tags", tags);
   ("ipfs_cid", cid);
   ("size_mb", VInt 0);
   ("created_at", VStr current_time)].

Definition generate_model_metadata (name : string)
  (description tags cid model_path : value) : M value :=
  login <- get_github_username ;;
  let github_username := if truthy login then login else VStr "anonymous" in
  let current_time := utc_now_isoformat in
  let metadata :=
    metadata_literal name description github_username tags cid current_time in
  ret (VDict (if truthy model_path
              then match directory_size_mb model_path with
                   | Val size_mb => dict_set "size_mb" size_mb metadata
                   | Exn _ => metadata
                   end
              else metadata)).

Definition generate_readme (metadata model_path : value) : exc string :=
  name <~ py_get metadata "name" (VStr "Unknown Model") ;;
  description <~ py_get metadata "description" (VStr "") ;;
  tags <~ py_get metadata "tags" (VList []) ;;
  cid <~ py_get metadata "ipfs_cid" (VStr "") ;;
  github_username <~ py_get metadata "author" (VStr "anonymous") ;;
  tags_line <~
    (if truthy tags
     then items <~ py_iter tags ;;
          Val (str_join ", "
                 (map (fun tag => "`" +:+ format_value tag +:+ "`") items))
     else Val "None") ;;
  name_slug <~
    match name with VStr s => Val (slug s) | _ => Exn AttributeError end ;;
  Val (text_of_lines
    [ "# " +:+ format_value name;
      "";
      format_value description;
      "";
      "## Details";
      "";
      "- **Author**: [" +:+ format_value github_username
        +:+ "](https://github.com/" +:+ format_value github_username +:+ ")";
      "- **IPFS CID**: `" +:+ format_value cid +:+ "`";
      "";
      "## Tags";
      "";
      tags_line;
      "";
      "## How to use";
      "";
      "### Download from IPFS";
      "";
      "```bash";
      "# Install IPFS CLI if needed";
      "npm i --global @web3-storage/w3cli";
      "";
      "# Download the model";
      "w3 get " +:+ format_value cid +:+ " -o ./models/" +:+ name_slug;
      "```";
      "";
      "## Web links";
      "";
      "- [View on IPFS Gateway](https://w3s.link/ipfs/" +:+ format_value cid
        +:+ ")" ]).

(** A call of [generate_readme] on positional arguments: the signature
    is [(metadata, model_path=None)]. *)
Definition call_generate_readme (args : list value) : exc string :=
  match args with
  | [metadata] => generate_readme metadata VNone
  | [metadata; model_path] => generate_readme metadata model_path
  | _ => Exn TypeError
  end.
End Utils.

(** ** [octoface/github.py] *)

(** An element of [files_to_create]. *)
Record file_info : Type := {
  fi_path : string;
  fi_content : string;
  fi_message : string
}.

Section GitHub.
Context `{L : PyLib} `{W : World}.

Definition token_headers : value :=
  auth_headers (os_environ_get "GITHUB_API_TOKEN").

Definition has_push_access : M value :=
  let headers := token_headers in
  try_except
    (response <- requests_get (ep_repo REPO_OWNER REPO_NAME) headers ;;
     if status_code response =? 200 then
       lift (body <~ response_json response ;;
             permissions <~ py_get body "permissions" (VDict []) ;;
             push <~ py_get permissions "push" (VBool false) ;;
             if truthy push then Val push
             else py_get permissions "admin" (VBool false))
     else ret (VBool false))
    (fun _ => ret (VBool false)).

Definition test_github_access : M bool :=
  let github_token := os_environ_get "GITHUB_API_TOKEN" in
  if negb (truthy github_token) then ret false
  else
    let headers := auth_headers github_token in
    try_except
      (response <- requests_get ep_user headers ;;
       if status_code response =? 200 then
         user_data <- lift (response_json response) ;;
         _ <- lift (py_get user_data "login" VNone) ;;
         repo_response <-
           requests_get (ep_repo REPO_OWNER REPO_NAME) headers ;;
         ret (status_code repo_response =? 200)
       else ret false)
      (fun _ => ret false).

Definition get_or_create_fork : M (bool * value) :=
  let headers := token_headers in
  try_except
    (login <- get_github_username ;;
     response <- requests_get (ep_repo (format_value login) REPO_NAME) headers ;;
     if status_code response =? 200 then
       body <- lift (response_json response) ;;
       html_url <- lift (py_get body "html_url" VNone) ;;
       ret (true, html_url)
     else
       response <-
         requests_post (ep_forks REPO_OWNER REPO_NAME) headers None ;;
       if status_in [200; 201; 202] (status_code response) then
         body <- lift (response_json response) ;;
         html_url <- lift (py_get body "html_url" VNone) ;;
         ret (true, html_url)
       else ret (false, VNone))
    (fun _ => ret (false, VNone)).

(** [response.json().get("object", {}).get("sha")] *)
Definition object_sha (r : response) : exc value :=
  body <~ response_json r ;;
  object <~ py_get body "object" (VDict []) ;;
  py_get object "sha" VNone.

(** [{"ref": f"refs/heads/{branch_name}", "sha": base_sha}] *)
Definition ref_data (branch_name : string) (base_sha : value) : value :=
  VDict [("ref", VStr ("refs/heads/" +:+ branch_name)); ("sha", base_sha)].

Definition create_branch_in_fork (branch_name : string)
  (github_username : value) : M bool :=
  let headers := token_headers in
  let owner := format_value github_username in
  try_except
    (first <- requests_get (ep_ref owner REPO_NAME "main") headers ;;
     response <-
       (if negb (status_code first =? 200) then
          _ <- time_sleep 5 ;;
          requests_get (ep_ref owner REPO_NAME "main") headers
        else ret first) ;;
     if status_code response =? 200 then
       base_sha <- lift (object_sha response) ;;
       if negb (truthy base_sha) then ret false
       else
         let data := ref_data branch_name base_sha in
         response <-
           requests_post (ep_refs owner REPO_NAME) headers (Some data) ;;
         ret (status_in [200; 201; 422] (status_code response))
     else ret false)
    (fun _ => ret false).

(** The [data] dict of a file write; [sha] is [Some] on the update path. *)
Definition file_data (commit_message content branch : string)
  (sha : option value) : value :=
  VDict ([("message", VStr commit_message);
          ("content", VStr (b64encode content));
          ("branch", VStr branch)]
         ++ match sha with Some file_sha => [("sha", file_sha)] | None => [] end).

(** [create_file] and [create_file_in_fork] differ in the owner only. *)
Definition write_file (owner path content commit_message branch : string)
  : M bool :=
  let headers := token_headers in
  try_except
    (check_response <-
       requests_get (ep_contents owner REPO_NAME path (Some branch)) headers ;;
     data <-
       (if status_code check_response =? 200 then
          body <- lift (response_json check_response) ;;
          file_sha <- lift (py_get body "sha" VNone) ;;
          ret (file_data commit_message content branch (Some file_sha))
        else ret (file_data commit_message content branch None)) ;;
     response <-
       requests_put (ep_contents owner REPO_NAME path None) headers data ;;
     ret (status_in [200; 201] (status_code response)))
    (fun _ => ret false).

Definition create_file_in_fork (path content commit_message branch : string)
  (github_username : value) : M bool :=
  write_file (format_value github_username) path content commit_message branch.

Definition create_file (path content commit_message branch : string)
  : M bool :=
  write_file REPO_OWNER path content commit_message branch.

(** [{"title": .., "body": .., "head": .., "base": "main"}] *)
Definition pull_data (title body head : string) : value :=
  VDict [("title", VStr title); ("body", VStr body); ("head", VStr head);
         ("base", VStr "main")].

(** Both pull-request functions post to the upstream repository. *)
Definition post_pull (title body head : string) : M value :=
  let headers := token_headers in
  try_except
    (let data := pull_data title body head in
     response <-
       requests_post (ep_pulls REPO_OWNER REPO_NAME) headers (Some data) ;;
     if status_code response =? 201 then
       pr_data <- lift (response_json response) ;;
       lift (py_get pr_data "html_url" VNone)
     else ret VNone)
    (fun _ => ret VNone).

Definition create_pull_request_from_fork (branch : string)
  (github_username : value) (title body : string) : M value :=
  post_pull title body (format_value github_username +:+ ":" +:+ branch).

Definition create_pull_request (branch title body : string) : M value :=
  post_pull title body branch.

Definition check_repo_initialized : M bool :=
  let headers := token_headers in
  try_except
    (response <- requests_get (ep_branch REPO_OWNER REPO_NAME "main") headers ;;
     ret (status_code response =? 200))
    (fun _ => ret false).

Definition initial_readme : string :=
  text_of_lines
    [ "# OctoFaceHub";
      "";
      "A catalog of IPFS-hosted models for OctoFace.";
      "";
      "## About";
      "";
      "OctoFaceHub is a hub for discovering and sharing models that can be used with OctoFace.";
      "Models are stored on IPFS, making them decentralized and accessible from anywhere.";
      "";
      "## Contributing";
      "";
      "To contribute a model, use the OctoFace CLI:";
      "";
      "```bash";
      "# Install the CLI";
      "pip install octoface";
      "";
      "# Upload a model";
      "octoface upload /path/to/model --name " +:+ dquote +:+ "My Model"
        +:+ dquote +:+ " --description " +:+ dquote +:+ "A description"
        +:+ dquote +:+ " --tags " +:+ dquote +:+ "tag1,tag2" +:+ dquote;
      "```";
      "";
      "For more information, see the [OctoFace repository](https://github.com/octofacehub/octoface)." ].

Definition create_initial_commit : M bool :=
  let headers := token_headers in
  try_except
    (let readme_content := initial_readme in
     let data :=
       VDict [("message", VStr "Initial commit");
              ("content", VStr (b64encode readme_content))] in
     response <-
       requests_put (ep_contents REPO_OWNER REPO_NAME "README.md" None)
         headers data ;;
     ret (status_in [200; 201] (status_code response)))
    (fun _ => ret false).

Definition create_branch (branch_name base_branch : string) : M bool :=
  let headers := token_headers in
  try_except
    (check_response <-
       requests_get (ep_branch REPO_OWNER REPO_NAME branch_name) headers ;;
     if status_code check_response =? 200 then ret true
     else
       response <-
         requests_get (ep_ref REPO_OWNER REPO_NAME base_branch) headers ;;
       if status_code response =? 200 then
         base_sha <- lift (object_sha response) ;;
         if negb (truthy base_sha) then ret false
         else
           let data := ref_data branch_name base_sha in
           response <-
             requests_post (ep_refs REPO_OWNER REPO_NAME) headers (Some data) ;;
           if status_code response =? 201 then ret true
           else if status_code response =? 409 then ret true
           else ret false
       else ret false)
    (fun _ => ret false).

(** [f"models/{github_username}/{model_name}"] *)
Definition model_dir_of (github_username : value) (model_name : string)
  : string :=
  "models/" +:+ format_value github_username +:+ "/" +:+ model_name.

(** The [model_entry] dict of [update_model_map]. *)
Definition model_entry_of (metadata github_username : value)
  (model_name : string) : exc value :=
  name <~ py_getitem metadata "name" ;;
  author <~ py_getitem metadata "author" ;;
  description <~ py_getitem metadata "description" ;;
  tags <~ py_getitem metadata "tags" ;;
  ipfs_cid <~ py_getitem metadata "ipfs_cid" ;;
  size_mb <~ py_getitem metadata "size_mb" ;;
  created_at <~ py_getitem metadata "created_at" ;;
  Val (VDict [("name", name);
              ("author", author);
              ("description", description);
              ("tags", tags);
              ("ipfs_cid", ipfs_cid);
              ("size_mb", size_mb);
              ("created_at", created_at);
              ("path", VStr (model_dir_of github_username model_name))]).

Definition model_map_path : string := "models/model-map.json".

(** The first half of [update_model_map]: what the catalog read yields,
    the parsed catalog and its revision marker. *)
Definition current_model_map (r : response) : exc (value * value) :=
  if status_code r =? 200 then
    model_map_data <~ response_json r ;;
    content <~ py_get model_map_data "content" VNone ;;
    model_map_content <~ b64decode_utf8 content ;;
    model_map_sha <~ py_get model_map_data "sha" VNone ;;
    Val (match json_loads model_map_content with
         | Some model_map => model_map
         | None => empty_model_map
         end, model_map_sha)
  else Val (empty_model_map, VNone).

(** The [data] dict of the catalog write. *)
Definition model_map_data_of (name : value) (updated_content branch : string)
  (model_map_sha : value) : value :=
  let data :=
    [("message", VStr ("Update model map with " +:+ format_value name));
     ("content", VStr (b64encode updated_content));
     ("branch", VStr branch)] in
  VDict (if truthy model_map_sha then dict_set "sha" model_map_sha data
         else data).

Definition update_model_map (metadata github_username : value)
  (model_name branch : string) : M bool :=
  let headers := token_headers in
  try_except
    (response <-
       requests_get
         (ep_contents REPO_OWNER REPO_NAME model_map_path (Some branch))
         headers ;;
     current <- lift (current_model_map response) ;;
     let model_map := fst current in
     let model_map_sha := snd current in
     model_entry <- lift (model_entry_of metadata github_username model_name) ;;
     model_map' <-
       lift (merge_model_map model_map model_entry
               (model_dir_of github_username model_name)) ;;
     let updated_content := json_dumps model_map' in
     name <- lift (py_getitem metadata "name") ;;
     let data := model_map_data_of name updated_content branch model_map_sha in
     response <-
       requests_put (ep_contents REPO_OWNER REPO_NAME model_map_path None)
         headers data ;;
     ret (status_in [200; 201] (status_code response)))
    (fun _ => ret false).

(** The loop over [files_to_create]; [write] is [create_file] or
    [create_file_in_fork].  The first failed write ends the loop. *)
Fixpoint create_each (write : string -> string -> string -> M bool)
  (files : list file_info) : M bool :=
  match files with
  | [] => ret true
  | f :: rest =>
      ok <- write (fi_path f) (fi_content f) (fi_message f) ;;
      if ok then create_each write rest else ret false
  end.

Definition readme_file (model_dir readme_content model_name : string)
  : file_info :=
  {| fi_path := model_dir +:+ "/README.md";
     fi_content := readme_content;
     fi_message := "Add README for " +:+ model_name |}.

Definition metadata_file (model_dir : string) (metadata : value)
  (model_name : string) : file_info :=
  {| fi_path := model_dir +:+ "/metadata.json";
     fi_content := json_dumps metadata;
     fi_message := "Add metadata for " +:+ model_name |}.

Definition tree_file (model_dir : string) (model_tree : value)
  (model_name : string) : file_info :=
  {| fi_path := model_dir +:+ "/tree.json";
     fi_content := json_dumps model_tree;
     fi_message := "Add file tree for " +:+ model_name |}.

Definition pr_title (model_name : string) : string :=
  "Add model: " +:+ model_name.

Definition pr_body (model_name : string) (github_username description : value)
  (ipfs_cid : value) : string :=
  "This PR adds the " +:+ model_name +:+ " model by @"
    +:+ format_value github_username +:+ "." +:+ newline +:+ newline
    +:+ "Model description: " +:+ format_value description
    +:+ newline +:+ newline
    +:+ "IPFS CID: `" +:+ format_value ipfs_cid +:+ "`".

(** [f"add-model-{model_name_slug}-{timestamp}"] *)
Definition branch_name_of (model_name : string) (timestamp : Z) : string :=
  "add-model-" +:+ slug model_name +:+ "-" +:+ pretty timestamp.

(** The [if has_push:] branch of [create_model_pr]. *)
Definition direct_push_flow (model_name : string)
  (description ipfs_cid github_username : value) (branch_name : string)
  (metadata model_tree : value) (readme_content : string) : M value :=
  try_except
    (initialized <- check_repo_initialized ;;
     init_ok <- (if negb initialized then create_initial_commit else ret true) ;;
     if negb init_ok then ret VNone
     else
       let default_branch := "main" in
       branch_created <- create_branch branch_name default_branch ;;
       if negb branch_created then ret VNone
       else
         let model_name_slug := slug model_name in
         let model_dir := model_dir_of github_username model_name_slug in
         let files_to_create :=
           [readme_file model_dir readme_content model_name;
            metadata_file model_dir metadata model_name;
            tree_file model_dir model_tree model_name] in
         files_ok <-
           create_each (fun path content message =>
                          create_file path content message branch_name)
             files_to_create ;;
         if negb files_ok then ret VNone
         else
           map_ok <-
             update_model_map metadata github_username model_name_slug
               branch_name ;;
           if negb map_ok then ret VNone
           else
             pr_url <-
               create_pull_request branch_name (pr_title model_name)
                 (pr_body model_name github_username
                    (py_or description (VStr "No description provided"))
                    ipfs_cid) ;;
             if truthy pr_url then ret pr_url else ret VNone)
    (fun _ => ret VNone).

(** The [else:] branch of [create_model_pr]. *)
Definition fork_flow (model_name : string)
  (description ipfs_cid github_username : value) (branch_name : string)
  (metadata : value) (readme_content : string) : M value :=
  fork <- get_or_create_fork ;;
  if negb (fst fork) then ret VNone
  else
    branch_created <- create_branch_in_fork branch_name github_username ;;
    if negb branch_created then ret VNone
    else
      let model_dir := model_dir_of github_username (slug model_name) in
      let files_to_create :=
        [readme_file model_dir readme_content model_name;
         metadata_file model_dir metadata model_name] in
      files_ok <-
        create_each (fun path content message =>
                       create_file_in_fork path content message branch_name
                         github_username)
          files_to_create ;;
      if negb files_ok then ret VNone
      else
        pr_url <-
          create_pull_request_from_fork branch_name github_username
            (pr_title model_name)
            (pr_body model_name github_username
               (py_or description (VStr "No description provided"))
               ipfs_cid) ;;
        if truthy pr_url then ret pr_url else ret VNone.

Definition create_model_pr (model_name : string)
  (description tags ipfs_cid model_path : value) : M value :=
  let github_token := os_environ_get "GITHUB_API_TOKEN" in
  if negb (truthy github_token) then ret VNone
  else
    github_username <- get_github_username ;;
    if negb (truthy github_username) then ret VNone
    else
      has_push <- has_push_access ;;
      try_except
        (let timestamp := time_time in
         let branch_name := branch_name_of model_name timestamp in
         let tags_list :=
           match tags with
           | VStr s => VList (tags_list_of s)
           | _ => tags
           end in
         metadata <-
           generate_model_metadata model_name description tags_list ipfs_cid
             model_path ;;
         if negb (truthy metadata) then ret VNone
         else
           model_tree <- lift (generate_model_tree [model_path]) ;;
           readme_content <- lift (generate_readme metadata model_path) ;;
           if truthy has_push then
             direct_push_flow model_name description ipfs_cid github_username
               branch_name metadata model_tree readme_content
           else
             fork_flow model_name description ipfs_cid github_username
               branch_name metadata readme_content)
        (fun _ => ret VNone).
End GitHub.

(** ** [utils.create_pull_request]

    The wrapper lives in [utils.py] and imports the GitHub functions inside
    its body, so it comes after them here.  [metadata] is a dict. *)

Module Wrapper.
Section Wrapper.
Context `{L : PyLib} `{W : World}.

(** [metadata[k]] *)
Definition item (metadata : list (string * value)) (k : string) : exc value :=
  py_getitem (VDict metadata) k.

Definition create_pull_request (name : string)
  (metadata : list (string * value)) (readme : string) : M value :=
  try_except
    (let github_token := os_environ_get "GITHUB_API_TOKEN" in
     if negb (truthy github_token) then ret VNone
     else
       github_username <- get_github_username ;;
       if negb (truthy github_username) then ret VNone
       else
         let timestamp := time_time in
         let model_name_slug := slug name in
         let branch_name := branch_name_of name timestamp in
         access <- test_github_access ;;
         if negb access then ret VNone
         else
           has_push <- has_push_access ;;
           model_tree <-
             lift (match dict_lookup "path" metadata with
                   | Some path => generate_model_tree [path]
                   | None => Val (VList [])
                   end) ;;
           if truthy has_push then
             initialized <- check_repo_initialized ;;
             init_ok <-
               (if negb initialized then create_initial_commit else ret true) ;;
             if negb init_ok then ret VNone
             else
               branch_created <- create_branch branch_name "main" ;;
               if negb branch_created then ret VNone
               else
                 let model_dir := model_dir_of github_username model_name_slug in
                 let files_to_create :=
                   [readme_file model_dir readme name;
                    metadata_file model_dir (VDict metadata) name]
                   ++ (if truthy model_tree
                       then [tree_file model_dir model_tree name]
                       else []) in
                 files_ok <-
                   create_each (fun path content message =>
                                  create_file path content message branch_name)
                     files_to_create ;;
                 if negb files_ok then ret VNone
                 else
                   map_ok <-
                     update_model_map (VDict metadata) github_username
                       model_name_slug branch_name ;;
                   if negb map_ok then ret VNone
                   else
                     description <- lift (item metadata "description") ;;
                     ipfs_cid <- lift (item metadata "ipfs_cid") ;;
                     create_pull_request branch_name (pr_title name)
                       (pr_body name github_username description ipfs_cid)
           else
             fork <- get_or_create_fork ;;
             if negb (fst fork) then ret VNone
             else
               branch_created <-
                 create_branch_in_fork branch_name github_username ;;
               if negb branch_created then ret VNone
               else
                 let model_dir := model_dir_of github_username model_name_slug in
                 let files_to_create :=
                   [readme_file model_dir readme name;
                    metadata_file model_dir (VDict metadata) name] in
                 files_ok <-
                   create_each (fun path content message =>
                                  create_file_in_fork path content message
                                    branch_name github_username)
                     files_to_create ;;
                 if negb files_ok then ret VNone
                 else
                   description <- lift (item metadata "description") ;;
                   ipfs_cid <- lift (item metadata "ipfs_cid") ;;
                   create_pull_request_from_fork branch_name github_username
                     (pr_title name)
                     (pr_body name github_username description ipfs_cid))
    (fun _ => ret VNone).
End Wrapper.
End Wrapper.

(** ** [octoface/cli.py] *)

(** A command goes on with a value or ends the process through
    [sys.exit(code)].  [SystemExit] is not an [Exception], so it travels in
    the value channel, where [try_except] leaves it alone. *)
Inductive step (A : Type) : Type :=
| Go (a : A)
| Stop (code : Z).
Arguments Go {A} a.
Arguments Stop {A} code.

Definition C (A : Type) : Type := M (step A).

Definition cret {A} (a : A) : C A := ret (Go a).

Definition cbind {A B} (m : C A) (f : A -> C B) : C B :=
  s <- m ;;
  match s with
  | Go a => f a
  | Stop code => ret (Stop code)
  end.

Definition sys_exit {A} (code : Z) : C A := ret (Stop code).

(** A computation of the lower layers, run inside a command. *)
Definition run {A} (m : M A) : C A := a <- m ;; ret (Go a).

Notation "x <<- c1 ;; c2" := (cbind c1 (fun x => c2))
  (at level 100, c1 at next level, right associativity) : monad_scope.

(** The status the process ends with: 0 when the command returns, the code
    of [sys.exit], and 1 when an exception reaches the interpreter. *)
Definition exit_status {A} (r : exc (step A)) : Z :=
  match r with
  | Val (Go _) => 0
  | Val (Stop code) => code
  | Exn _ => 1
  end.

(** [os.path.join(a, b)] on POSIX paths *)
Definition posix_join (a b : string) : string :=
  if String.prefix "/" b then b
  else if String.eqb a "" then b
  else if String.eqb (String.substring (String.length a - 1) 1 a) "/"
       then a +:+ b
       else a +:+ "/" +:+ b.

(** [s[n:]] *)
Fixpoint str_drop (n : nat) (s : string) : string :=
  match n, s with
  | O, _ => s
  | S n', String _ rest => str_drop n' rest
  | S _, EmptyString => EmptyString
  end.

Section Cli.
Context `{L : PyLib} `{W : World}.

Definition say (line : string) : C unit := run (console_print line).

(** [path and path.startswith("hf://")] *)
Definition is_hf (path : value) : bool :=
  match path with
  | VStr p => truthy path && String.prefix "hf://" p
  | _ => false
  end.

(** The "Process HuggingFace model ID" block shared by two commands;
    it yields the new [path]. *)
Definition process_hf (path : value) : C value :=
  match path with
  | VStr p =>
      if is_hf path then
        _ <<- say ("Downloading model from HuggingFace: " +:+ str_drop 5 p) ;;
        model_path <<- run (lift (download_model (str_drop 5 p) None)) ;;
        if negb (truthy model_path) then
          _ <<- say "[red]Failed to download model.[/red]" ;;
          sys_exit 1
        else cret model_path
      else cret path
  | _ => cret path
  end.

Definition download (model_path output : string) : C unit :=
  try_except
    (result <<- run (lift (download_model model_path (Some output))) ;;
     if truthy result then
       _ <<- say ("[green]Successfully downloaded model: " +:+ model_path
                  +:+ "[/green]") ;;
       _ <<- say ("Saved to: " +:+ format_value result) ;;
       cret tt
     else
       _ <<- say "[red]Failed to download model[/red]" ;;
       cret tt)
    (fun e =>
       _ <<- say ("[red]Error: " +:+ exn_message e +:+ "[/red]") ;;
       sys_exit 1).

(** [not s] for an optional string *)
Definition blank (s : option string) : bool :=
  match s with
  | Some t => String.eqb t ""
  | None => true
  end.

Definition upload (path : value) (name description tags : option string)
  : C unit :=
  if negb (truthy (os_environ_get "GITHUB_API_TOKEN")) then
    _ <<- say "[red]GITHUB_API_TOKEN environment variable is not set.[/red]" ;;
    _ <<- say ("[yellow]Please set it using: export GITHUB_API_TOKEN="
               +:+ dquote +:+ "your-github-api-token" +:+ dquote
               +:+ "[/yellow]") ;;
    sys_exit 1
  else
    path <<- process_hf path ;;
    name <<-
      (if blank name && truthy path then
         match path with
         | VStr p =>
             let name := basename_abspath p in
             _ <<- say ("Using directory name as model name: " +:+ name) ;;
             cret (Some name)
         | _ => run (lift (Exn TypeError))
         end
       else cret name) ;;
    match name with
    | None | Some "" =>
        _ <<- say "[red]Model name is required.[/red]" ;;
        sys_exit 1
    | Some name =>
        let description :=
          if blank description
          then click_prompt "Enter a description for the model"
          else default "" description in
        let tags :=
          if blank tags
          then click_prompt "Enter comma-separated tags for the model"
          else default "" tags in
        _ <<- say ("Uploading model to IPFS: " +:+ format_value path) ;;
        cid <<- run (lift (upload_to_ipfs path)) ;;
        if negb (truthy cid) then
          _ <<- say "[red]Failed to upload model to IPFS.[/red]" ;;
          sys_exit 1
        else
          _ <<- say ("[green]Model uploaded to IPFS with CID: "
                     +:+ format_value cid +:+ "[/green]") ;;
          _ <<- say ("[green]View your model at https://w3s.link/ipfs/"
                     +:+ format_value cid +:+ "[/green]") ;;
          _ <<- say "" ;;
          _ <<- say "[bold]Creating GitHub Pull Request...[/bold]" ;;
          _ <<- say "[yellow]This process will:[/yellow]" ;;
          _ <<- say "[yellow]1. Check if you have direct push access to the repository[/yellow]" ;;
          _ <<- say "[yellow]2. If you do, create a PR directly[/yellow]" ;;
          _ <<- say "[yellow]3. If not, automatically create a fork, add files, and submit a PR from your fork[/yellow]" ;;
          _ <<- say "" ;;
          _ <<- say "Testing GitHub API access..." ;;
          access <<- run test_github_access ;;
          if negb access then
            _ <<- say "[red]Failed to access GitHub API. Please check your token and internet connection.[/red]" ;;
            sys_exit 1
          else
            pr_url <<-
              run (create_model_pr name (VStr description) (VStr tags) cid
                     path) ;;
            if truthy pr_url then
              _ <<- say "" ;;
              _ <<- say "[bold green]Model submission complete![/bold green]" ;;
              _ <<- say ("[green]IPFS CID: " +:+ format_value cid
                         +:+ "[/green]") ;;
              _ <<- say ("[green]Pull Request: " +:+ format_value pr_url
                         +:+ "[/green]") ;;
              _ <<- say "" ;;
              _ <<- say "[yellow]The OctoFaceHub team will review your submission.[/yellow]" ;;
              cret tt
            else
              _ <<- say "" ;;
              _ <<- say "[yellow]Model was uploaded to IPFS but the GitHub PR process failed.[/yellow]" ;;
              _ <<- say ("[green]IPFS CID: " +:+ format_value cid
                         +:+ "[/green]") ;;
              _ <<- say ("[green]Access at: https://w3s.link/ipfs/"
                         +:+ format_value cid +:+ "[/green]") ;;
              _ <<- say "" ;;
              _ <<- say "[yellow]You can try again later or use 'octoface generate-files' to manually create the files.[/yellow]" ;;
              sys_exit 1
    end.


(** The guide text of [generate_files]. *)
Definition guide_text (cid github_username : value)
  (model_name model_dir name : string) : string :=
  let user := format_value github_username in
  text_of_lines
    [ "# How to Add Your Model to OctoFaceHub";
      "";
      "Your model has been successfully uploaded to IPFS with CID: "
        +:+ format_value cid;
      "View your model at: https://w3s.link/ipfs/" +:+ format_value cid;
      "";
      "To add your model to OctoFaceHub, follow these steps:";
      "";
      "1. Fork the OctoFaceHub repository: https://github.com/octofacehub/octofacehub.github.io";
      "2. Clone your fork:";
      "   ```";
      "   git clone https://github.com/" +:+ user +:+ "/octofacehub.github.io.git";
      "   cd octofacehub.github.io";
      "   ```";
      "3. Copy the generated files to your cloned repository:";
      "   ```";
      "   mkdir -p models/" +:+ user +:+ "/" +:+ model_name;
      "   cp -r " +:+ model_dir +:+ "/* models/" +:+ user +:+ "/"
        +:+ model_name +:+ "/";
      "   ```";
      "4. Commit and push your changes:";
      "   ```";
      "   git add models/" +:+ user +:+ "/" +:+ model_name;
      "   git commit -m " +:+ dquote +:+ "Add " +:+ name +:+ " model" +:+ dquote;
      "   git push";
      "   ```";
      "5. Create a pull request from your fork to the main repository.";
      "";
      "The generated files are located at: " +:+ model_dir ].

(** [os.path.join(a, b)] where [b] came from the API *)
Definition join_value (a : string) (b : value) : exc string :=
  match b with
  | VStr t => Val (posix_join a t)
  | _ => Exn TypeError
  end.

(** What [generate_files] does once it holds [cid]: from "Generate model
    metadata" to the end. *)
Definition generate_files_output (name : string) (description : value)
  (tags : string) (cid : value) (output : string) : C unit :=
  let tags_list := VList (tags_list_of tags) in
  metadata <<- run (generate_model_metadata name description tags_list cid VNone) ;;
  readme <<-
    run (lift (call_generate_readme [VStr name; description; tags_list; cid])) ;;
  model_tree <<-
    run (lift (generate_model_tree [VStr name; metadata; VStr readme])) ;;
  login <<- run get_github_username ;;
  github_username <<-
    (if negb (truthy login) then
       _ <<- say "[yellow]GitHub username not available, using 'anonymous'[/yellow]" ;;
       cret (VStr "anonymous")
     else cret login) ;;
  let model_name := slug name in
  user_dir <<- run (lift (join_value output github_username)) ;;
  _ <<- run (file_system (MakeDirs user_dir)) ;;
  let model_dir := posix_join user_dir model_name in
  _ <<- run (file_system (MakeDirs model_dir)) ;;
  _ <<- run (file_system (WriteFile (posix_join model_dir "metadata.json")
                            (json_dumps metadata))) ;;
  _ <<- run (file_system (WriteFile (posix_join model_dir "README.md") readme)) ;;
  let guide := guide_text cid github_username model_name model_dir name in
  _ <<- run (file_system (WriteFile (posix_join output "GUIDE.md") guide)) ;;
  _ <<- say ("[green]Files generated successfully at: " +:+ output
             +:+ "[/green]") ;;
  _ <<- say ("[green]Follow the instructions in "
             +:+ posix_join output "GUIDE.md"
             +:+ " to add your model to OctoFaceHub.[/green]") ;;
  cret tt.

Definition generate_files (path : value) (name : string) (description : value)
  (tags : string) (cid : value) (output : string) : C unit :=
  _ <<- run (file_system (MakeDirs output)) ;;
  let github_token := os_environ_get "GITHUB_API_TOKEN" in
  _ <<-
    (if negb (truthy github_token) then
       _ <<- say "[yellow]Warning: GITHUB_API_TOKEN environment variable not set.[/yellow]" ;;
       say "[yellow]Some GitHub-related information may not be available.[/yellow]"
     else cret tt) ;;
  path <<- process_hf path ;;
  cid <<-
    (if negb (truthy cid) && truthy path then
       _ <<- say ("Uploading model to IPFS: " +:+ format_value path) ;;
       cid <<- run (lift (upload_to_ipfs path)) ;;
       if negb (truthy cid) then
         _ <<- say "[red]Failed to upload model to IPFS.[/red]" ;;
         sys_exit 1
       else
         _ <<- say ("[green]Model uploaded to IPFS with CID: "
                    +:+ format_value cid +:+ "[/green]") ;;
         _ <<- say ("[green]View your model at https://w3s.link/ipfs/"
                    +:+ format_value cid +:+ "[/green]") ;;
         cret cid
     else if negb (truthy cid) && negb (truthy path) then
       _ <<- say "[red]Either --path or --cid must be provided.[/red]" ;;
       sys_exit 1
     else cret cid) ;;
  generate_files_output name description tags cid output.
End Cli.

(** ** The shell: [check_credentials] and [setup-w3]

    These two functions start programs with [subprocess.run] and print.
    Their layer has its own events, and its own exceptions, since the code
    tells a missing program ([FileNotFoundError]) from every other failure. *)

(** [subprocess.CompletedProcess], with the output captured as text *)
Record completed_process : Type := {
  returncode : Z;
  stdout : string;
  stderr : string
}.

(** What [subprocess.run] may raise: the program is missing, or any other
    exception. *)
Inductive spawn_exn : Type :=
| FileNotFoundError
| OtherError (e : pyexn).

Inductive spawned : Type :=
| Failed (e : spawn_exn)
| Completed (p : completed_process).

Inductive action : Type :=
| Spawn (argv : list string)
| Tell (line : string).

Class Shell : Type := {
  (** [subprocess.run(argv, capture_output=True, text=True)], given what
      was done before *)
  subprocess_run : list action -> list string -> spawned;
  (** [str(e)] *)
  spawn_message : spawn_exn -> string
}.

(** How a function of this layer ends: it returns, it ends the process
    with [sys.exit], or it raises. *)
Inductive ending (A : Type) : Type :=
| Returns (a : A)
| Exits (code : Z)
| Raises (e : spawn_exn).
Arguments Returns {A} a.
Arguments Exits {A} code.
Arguments Raises {A} e.

Definition Sh (A : Type) : Type := list action -> ending A * list action.

Definition sh_ret {A} (a : A) : Sh A := fun _ => (Returns a, []).

Definition sh_bind {A B} (m : Sh A) (f : A -> Sh B) : Sh B :=
  fun h =>
    match m h with
    | (Returns a, o1) =>
        match f a (h ++ o1) with
        | (r, o2) => (r, o1 ++ o2)
        end
    | (Exits code, o1) => (Exits code, o1)
    | (Raises e, o1) => (Raises e, o1)
    end.

(** [sys.exit(code)] *)
Definition sh_exit {A} (code : Z) : Sh A := fun _ => (Exits code, []).

(** [console.print(line)] *)
Definition tell (line : string) : Sh unit := fun _ => (Returns tt, [Tell line]).

(** [try: m except FileNotFoundError: handler] *)
Definition except_missing {A} (m handler : Sh A) : Sh A :=
  fun h =>
    match m h with
    | (Raises FileNotFoundError, o1) =>
        match handler (h ++ o1) with
        | (r, o2) => (r, o1 ++ o2)
        end
    | other => other
    end.

(** [try: m except Exception as e: handler e]; [SystemExit] is no
    [Exception] and passes. *)
Definition except_any {A} (m : Sh A) (handler : spawn_exn -> Sh A) : Sh A :=
  fun h =>
    match m h with
    | (Raises e, o1) =>
        match handler e (h ++ o1) with
        | (r, o2) => (r, o1 ++ o2)
        end
    | other => other
    end.

Notation "x <-$ c1 ;; c2" := (sh_bind c1 (fun x => c2))
  (at level 100, c1 at next level, right associativity) : monad_scope.

(** [needle in s] *)
Fixpoint str_contains (needle s : string) : bool :=
  String.prefix needle s
  || match s with
     | EmptyString => false
     | String _ rest => str_contains needle rest
     end.

(** The status the process ends with. *)
Definition process_status {A} (r : ending A) : Z :=
  match r with
  | Returns _ => 0
  | Exits code => code
  | Raises _ => 1
  end.

Section Shell.
Context `{W : World} `{S : Shell}.

Definition spawn (argv : list string) : Sh completed_process :=
  fun h =>
    match subprocess_run h argv with
    | Failed e => (Raises e, [Spawn argv])
    | Completed p => (Returns p, [Spawn argv])
    end.

(** The four steps both branches of the login check print. *)
Definition login_steps : Sh unit :=
  _ <-$ tell "[yellow]1. Run: w3 login --email your.email@example.com[/yellow]" ;;
  _ <-$ tell "[yellow]2. Check your email and click the verification link[/yellow]" ;;
  _ <-$ tell "[yellow]3. Run: w3 space create my-octoface-space[/yellow]" ;;
  tell "[yellow]4. Run: w3 space use my-octoface-space[/yellow]".

(** [utils.check_credentials]; the variable [all_credentials_valid] is
    threaded through the three checks. *)
Definition check_credentials : Sh bool :=
  let github_token := os_environ_get "GITHUB_API_TOKEN" in
  all_credentials_valid <-$
    (if negb (truthy github_token) then
       _ <-$ tell "[red]GitHub API token not found. Please set GITHUB_API_TOKEN environment variable.[/red]" ;;
       _ <-$ tell ("[yellow]Example: export GITHUB_API_TOKEN=" +:+ dquote
                   +:+ "your-github-api-token" +:+ dquote +:+ "[/yellow]") ;;
       sh_ret false
     else sh_ret true) ;;
  all_credentials_valid <-$
    except_missing
      (result <-$ spawn ["w3"; "--version"] ;;
       if negb (returncode result =? 0) then
         _ <-$ tell "[red]w3cli not found. Please install it with: npm i --global @web3-storage/w3cli[/red]" ;;
         sh_ret false
       else sh_ret all_credentials_valid)
      (_ <-$ tell "[red]w3cli not found. Please install it with: npm i --global @web3-storage/w3cli[/red]" ;;
       sh_ret false) ;;
  except_any
    (result <-$ spawn ["w3"; "did"] ;;
     if negb (returncode result =? 0) || str_contains "No space" (stdout result)
     then
       _ <-$ tell "[red]Not logged in to web3.storage. Please follow these steps:[/red]" ;;
       _ <-$ login_steps ;;
       sh_ret false
     else sh_ret all_credentials_valid)
    (fun _ =>
       _ <-$ tell "[red]Error checking web3.storage login. Please follow these steps:[/red]" ;;
       _ <-$ login_steps ;;
       sh_ret false).

(** The block [setup_w3] runs when [w3 --version] fails, in the [try] and
    again in its handler. *)
Definition install_w3cli : Sh unit :=
  _ <-$ tell "[red]w3cli not found. Installing w3cli...[/red]" ;;
  _ <-$ tell "[yellow]This may take a moment...[/yellow]" ;;
  npm_result <-$ spawn ["npm"; "i"; "--global"; "@web3-storage/w3cli"] ;;
  if negb (returncode npm_result =? 0) then
    _ <-$ tell "[red]Failed to install w3cli. Please install it manually:[/red]" ;;
    _ <-$ tell "[yellow]npm i --global @web3-storage/w3cli[/yellow]" ;;
    sh_exit 1
  else tell "[green]Successfully installed w3cli.[/green]".

(** "Check if w3cli is installed" *)
Definition ensure_w3cli : Sh unit :=
  except_missing
    (result <-$ spawn ["w3"; "--version"] ;;
     if negb (returncode result =? 0) then install_w3cli else sh_ret tt)
    install_w3cli.

(** [w3 login] and what follows it; this never returns. *)
Definition request_login {A} (email : string) : Sh A :=
  login_result <-$ spawn ["w3"; "login"; "--email"; email] ;;
  if negb (returncode login_result =? 0) then
    _ <-$ tell "[red]Failed to log in. Please try again later or use a different email.[/red]" ;;
    _ <-$ tell ("[red]Error: " +:+ stderr login_result +:+ "[/red]") ;;
    sh_exit 1
  else
    _ <-$ tell "[green]Login process initiated. Check your email for a verification link.[/green]" ;;
    _ <-$ tell "[yellow]After clicking the verification link, run this command again to create a space.[/yellow]" ;;
    sh_exit 0.

(** [if not email: ...; sys.exit(1)] *)
Definition ask_for_email {A} : Sh A :=
  _ <-$ tell "[yellow]Please provide an email address for w3 login.[/yellow]" ;;
  _ <-$ tell "[yellow]Example: octoface setup-w3 --email your.email@example.com[/yellow]" ;;
  sh_exit 1.

(** "Check if already logged in".  The block yields False where the
    source returns from the function, and True where it falls through to
    the creation of the space. *)
Definition ensure_login (email : option string) : Sh bool :=
  except_any
    (did_result <-$ spawn ["w3"; "did"] ;;
     if (returncode did_result =? 0)
        && str_contains "did:key:" (stdout did_result)
     then
       _ <-$ tell "[green]Already logged in to web3.storage.[/green]" ;;
       space_result <-$ spawn ["w3"; "space"; "ls"] ;;
       if (returncode space_result =? 0)
          && negb (String.eqb (str_strip (stdout space_result)) "")
       then
         _ <-$ tell "[green]Space already exists.[/green]" ;;
         sh_ret false
       else
         _ <-$ tell "[yellow]No space found. Creating a new space...[/yellow]" ;;
         sh_ret true
     else
       match email with
       | None | Some "" => ask_for_email
       | Some email =>
           _ <-$ tell ("[yellow]Logging in with email: " +:+ email
                       +:+ "[/yellow]") ;;
           _ <-$ tell "[yellow]This will send a verification link to your email.[/yellow]" ;;
           _ <-$ tell "[yellow]Please check your email and click the verification link.[/yellow]" ;;
           request_login email
       end)
    (fun e =>
       _ <-$ tell ("[red]Error checking w3 login status: " +:+ spawn_message e
                   +:+ "[/red]") ;;
       match email with
       | None | Some "" => ask_for_email
       | Some email =>
           _ <-$ tell ("[yellow]Attempting to log in with email: " +:+ email
                       +:+ "[/yellow]") ;;
           _ <-$ tell "[yellow]This will send a verification link to your email.[/yellow]" ;;
           except_any (request_login email)
             (fun login_err =>
                _ <-$ tell ("[red]Error initiating login: "
                            +:+ spawn_message login_err +:+ "[/red]") ;;
                sh_exit 1)
       end).

(** "Create space if needed" *)
Definition create_space : Sh unit :=
  except_any
    (space_result <-$ spawn ["w3"; "space"; "create"; "octoface-space"] ;;
     if negb (returncode space_result =? 0) then
       _ <-$ tell "[red]Failed to create space. Please try again later.[/red]" ;;
       _ <-$ tell ("[red]Error: " +:+ stderr space_result +:+ "[/red]") ;;
       sh_exit 1
     else
       _ <-$ tell "[green]Successfully created space.[/green]" ;;
       use_result <-$ spawn ["w3"; "space"; "use"; "octoface-space"] ;;
       if negb (returncode use_result =? 0) then
         _ <-$ tell "[red]Failed to use space. Please try again later.[/red]" ;;
         _ <-$ tell ("[red]Error: " +:+ stderr use_result +:+ "[/red]") ;;
         sh_exit 1
       else
         _ <-$ tell "[green]Successfully set up web3.storage credentials.[/green]" ;;
         tell "[green]You are now ready to upload models to IPFS.[/green]")
    (fun e =>
       _ <-$ tell ("[red]Error setting up space: " +:+ spawn_message e
                   +:+ "[/red]") ;;
       sh_exit 1).

(** [cli.setup_w3] *)
Definition setup_w3 (email : option string) : Sh unit :=
  _ <-$ ensure_w3cli ;;
  go_on <-$ ensure_login email ;;
  if go_on then create_space else sh_ret tt.
End Shell.

(** ** Sample environments

    Concrete instances of the library and of the remote side, to run the
    program on. *)

(** A compact JSON printer, without escapes. *)
Fixpoint show_value (v : value) : string :=
  match v with
  | VNone => "null"
  | VBool true => "true"
  | VBool false => "false"
  | VInt n => pretty n
  | VStr s => dquote +:+ s +:+ dquote
  | VList l => "[" +:+ String.concat "," (map show_value l) +:+ "]"
  | VDict d =>
      "{" +:+ String.concat ","
               (map (fun kv => dquote +:+ fst kv +:+ dquote +:+ ":"
                               +:+ show_value (snd kv)) d)
          +:+ "}"
  end.

(** An entry under another path. *)
Definition unrelated_entry : list (string * value) :=
  [("name", VStr "other"); ("path", VStr "models/bob/other")].

(** An entry under the path of the sample submission. *)
Definition earlier_entry : list (string * value) :=
  [("name", VStr "My Model"); ("path", VStr "models/alice/my-model")].

(** A catalog of two entries. *)
Definition sample_catalog : value :=
  VDict [("models", VList [VDict unrelated_entry; VDict earlier_entry])].

(** The identity stands in for base64; of all texts only the printed sample
    catalog parses. *)
Definition sample_lib : PyLib := {|
  repr := show_value;
  json_dumps := show_value;
  json_loads := fun s =>
    if String.eqb s (show_value sample_catalog) then Some sample_catalog
    else None;
  b64encode := fun s => s;
  b64decode_utf8 := fun v =>
    match v with
    | VStr s => Val s
    | _ => Exn TypeError
    end;
  exn_message := fun _ => "error"
|}.

Definition response_with (status : Z) (body : option value) : response :=
  {| status_code := status; json_body := body; text := "" |}.

Definition reply_with (status : Z) (body : option value) : reply :=
  Replied (response_with status body).

(** The parts of an environment that are not the remote side. *)
Definition sample_world (token : option string)
  (answers : list event -> event -> reply) : World := {|
  environ_get := fun name =>
    if String.eqb name "GITHUB_API_TOKEN" then token else None;
  respond := answers;
  time_time := 1700000000;
  utc_now_isoformat := "2023-11-14T22:13:20+00:00";
  directory_size_mb := fun _ => Val (VInt 2);
  generate_model_tree := fun _ => Val (VList [VStr "weights.bin"]);
  upload_to_ipfs := fun _ => Val (VStr "bafybeigdyrzt");
  download_model := fun _ _ => Val VNone;
  click_prompt := fun _ => "";
  basename_abspath := fun path => path;
  fs_error := fun _ _ => None
|}.

(** A remote side that answers by position: the n-th event gets the n-th
    answer, and a transport error after the script ends. *)
Definition scripted (script : list reply) : World :=
  sample_world (Some "ghp_sample")
    (fun h _ => default (Raised RequestException) (script !! length h)).

Definition slept (h : list event) : bool :=
  existsb (fun ev => match ev with Sleep _ => true | _ => false end) h.

(** A remote side that behaves like the service for user alice: the
    upstream repository is initialised, no file and no submission branch
    exists yet, alice has no fork, and a new fork has its main branch only
    after the pause.  [push] is alice's permission on the upstream
    repository and [catalog] the catalog file, when there is one. *)
Definition service (push : bool) (catalog : option value)
  (h : list event) (ev : event) : reply :=
  match ev with
  | Get ep_user _ => reply_with 200 (Some (VDict [("login", VStr "alice")]))
  | Get (ep_repo owner _) _ =>
      if String.eqb owner REPO_OWNER
      then reply_with 200
             (Some (VDict [("permissions",
                            VDict [("push", VBool push);
                                   ("admin", VBool false)])]))
      else reply_with 404 None
  | Post (ep_forks _ _) _ _ =>
      reply_with 202
        (Some (VDict [("html_url",
                       VStr "https://github.com/alice/octofacehub.github.io")]))
  | Get (ep_branch _ _ branch) _ =>
      if String.eqb branch "main" then reply_with 200 (Some (VDict []))
      else reply_with 404 None
  | Get (ep_ref owner _ _) _ =>
      if String.eqb owner REPO_OWNER || slept h
      then reply_with 200
             (Some (VDict [("object", VDict [("sha", VStr "4b825dc6")])]))
      else reply_with 404 None
  | Post (ep_refs _ _) _ _ => reply_with 201 (Some (VDict []))
  | Get (ep_contents _ _ path _) _ =>
      if String.eqb path model_map_path
      then match catalog with
           | Some file => reply_with 200 (Some file)
           | None => reply_with 404 None
           end
      else reply_with 404 None
  | Put _ _ _ => reply_with 201 (Some (VDict []))
  | Post (ep_pulls _ _) _ _ =>
      reply_with 201
        (Some (VDict [("html_url",
                       VStr "https://github.com/octofacehub/octofacehub.github.io/pull/7")]))
  | _ => reply_with 404 None
  end.

Definition alice (push : bool) (catalog : option value) : World :=
  sample_world (Some "ghp_sample") (service push catalog).

(** The catalog file holding the sample catalog. *)
Definition catalog_file : value :=
  VDict [("content", VStr (show_value sample_catalog)); ("sha", VStr "9e2f1c")].

(** The metadata of a sample submission. *)
Definition sample_metadata : list (string * value) :=
  [("name", VStr "My Model");
   ("description", VStr "A small model");
   ("author", VStr "alice");
   ("tags", VList [VStr "nlp"; VStr "small"]);
   ("ipfs_cid", VStr "bafybeigdyrzt");
   ("size_mb", VInt 2);
   ("created_at", VStr "2023-11-14T22:13:20+00:00")].



Definition permissions_reply (push admin : bool) : reply :=
  reply_with 200
    (Some (VDict [("permissions",
                   VDict [("push", VBool push); ("admin", VBool admin)])])).


(** * Properties *)

(** ** Names and texts *)

Example branch_name_my_model :
  branch_name_of "My Model" 1700000000 = "add-model-my-model-1700000000".
Proof. reflexivity. Qed.

Example tags_are_stripped :
  tags_list_of " nlp, small ,x" = [VStr "nlp"; VStr "small"; VStr "x"].
Proof. reflexivity. Qed.

Example no_tags_is_one_empty_tag : tags_list_of "" = [VStr ""].
Proof. reflexivity. Qed.

Example contents_url :
  url (ep_contents REPO_OWNER REPO_NAME model_map_path (Some "b"))
  = "https://api.github.com/repos/octofacehub/octofacehub.github.io/contents/models/model-map.json?ref=b".
Proof. reflexivity. Qed.

(** ** The catalog merge *)

(** A catalog is the list under ["models"]; its entries are dicts. *)
Abbreviation catalog := (list (list (string * value))).


(** The same on a value of the merged list. *)
Definition model_path_of (model : value) : value :=
  match py_get model "path" (VStr "") with
  | Val p => p
  | Exn _ => VNone
  end.

Definition models_of (C : catalog) : list value := VDict <$> C.

Section CatalogMerge.
Implicit Types (C : catalog) (E : value) (p : string).






End CatalogMerge.


(** Three entries with one path, for the case the merge does not cover. *)
Definition shared_path : string := "models/alice/my-model".



Definition fresh_entry : list (string * value) :=
  [("name", VStr "third"); ("path", VStr shared_path)].



(** ** Running computations *)

(** Histories and event lists are kept as [h ++ [e1; ..; en]]. *)
Ltac norm_events :=
  cbn [fst snd exc_bind];
  repeat (rewrite app_nil_r || rewrite <- app_assoc);
  cbn [app].

(** Unfold the monad and split on the next reply or pure outcome. *)
Ltac unfold_monad :=
  unfold try_except, bind, requests_get, requests_post, requests_put, perform,
    time_sleep, lift, ret.

Ltac next_case :=
  norm_events;
  match goal with
  | |- context [respond ?h ?ev] =>
      let e := fresh "e" in let r := fresh "r" in
      destruct (respond h ev) as [e|r]
  end;
  norm_events.

(** *** Paths *)







(** Two files of one directory differ when their names do. *)
Lemma sibling_differs (model_dir file1 file2 : string) :
  file1 <> file2 ->
  String.eqb (model_dir +:+ file1) (model_dir +:+ file2) = false.
Proof.
  intros Hne. apply String.eqb_neq. intros Heq. apply Hne.
  by apply (String.app_inj model_dir).
Qed.

Section MonadLemmas.
Context {A B : Type}.
Implicit Types (m : M A) (f : A -> M B) (h o : list event).

Lemma bind_val m f h a o1 :
  m h = (Val a, o1) ->
  bind m f h = (let (r, o2) := f a (h ++ o1) in (r, o1 ++ o2)).
Proof. unfold bind. by intros ->. Qed.

Lemma bind_exn m f h e o1 :
  m h = (Exn e, o1) -> bind m f h = (Exn e, o1).
Proof. unfold bind. by intros ->. Qed.

Lemma bind_inv_val m f h (b : B) o :
  bind m f h = (Val b, o) ->
  exists a o1 o2,
    m h = (Val a, o1) /\ f a (h ++ o1) = (Val b, o2) /\ o = o1 ++ o2.
Proof.
  unfold bind. destruct (m h) as [[a|e] o1]; [|done].
  destruct (f a (h ++ o1)) as [r o2] eqn:Hf. intros [= -> <-].
  by exists a, o1, o2.
Qed.

(** A handler that yields a falsy constant: a truthy result came from the
    body. *)
Lemma try_except_inv_val (m : M A) (fallback : A) h (v : A) o :
  try_except m (fun _ => ret fallback) h = (Val v, o) ->
  m h = (Val v, o) \/ (v = fallback /\ exists e, m h = (Exn e, o)).
Proof.
  unfold try_except, ret. destruct (m h) as [[a|e] o1].
  - intros [= -> ->]. by left.
  - rewrite app_nil_r. intros [= <- <-]. right. eauto.
Qed.
End MonadLemmas.

(** [emits P m]: every event [m] issues satisfies [P], whatever happens. *)
Definition emits {A} (P : event -> Prop) (m : M A) : Prop :=
  forall h r o, m h = (r, o) -> Forall P o.

(** [total m]: [m] never raises. *)
Definition total {A} (m : M A) : Prop :=
  forall h, exists a o, m h = (Val a, o).

Section Emits.
Context {A B : Type} (P : event -> Prop).

Lemma emits_ret (a : A) : emits P (ret a).
Proof. intros h r o [= _ <-]. constructor. Qed.


Lemma emits_bind (m : M A) (f : A -> M B) :
  emits P m -> (forall a, emits P (f a)) -> emits P (bind m f).
Proof.
  intros Hm Hf h r o. unfold bind.
  destruct (m h) as [[a|e] o1] eqn:Em.
  - destruct (f a (h ++ o1)) as [r2 o2] eqn:Ef. intros [= _ <-].
    apply Forall_app. split; [by eapply Hm | by eapply Hf].
  - intros [= _ <-]. by eapply Hm.
Qed.




Lemma emits_if (c : bool) (m1 m2 : M A) :
  emits P m1 -> emits P m2 -> emits P (if c then m1 else m2).
Proof. by destruct c. Qed.

Lemma total_ret (a : A) : total (ret a).
Proof. intros h. by eexists _, _. Qed.

Lemma total_bind (m : M A) (f : A -> M B) :
  total m -> (forall a, total (f a)) -> total (bind m f).
Proof.
  intros Hm Hf h. destruct (Hm h) as (a & o1 & Ha).
  destruct (Hf a (h ++ o1)) as (b & o2 & Hb).
  exists b, (o1 ++ o2). unfold bind. by rewrite Ha, Hb.
Qed.

Lemma total_if (c : bool) (m1 m2 : M A) :
  total m1 -> total m2 -> total (if c then m1 else m2).
Proof. by destruct c. Qed.

Lemma total_try_except (m : M A) (fallback : A) :
  total (try_except m (fun _ => ret fallback)).
Proof.
  intros h. unfold try_except, ret. destruct (m h) as [[a|e] o1]; eauto.
Qed.
End Emits.

(** *** Steps in sequence *)





Section Steps.
Context {A B C : Type}.






End Steps.











Section RunLemmas.
Context `{L : PyLib} `{W : World}.


(** The pure middle of [update_model_map]: from the reply to the catalog read
    to the [data] of the write. *)
Definition catalog_write (metadata github_username : value)
  (model_name branch : string) (r : response) : exc value :=
  current <~ current_model_map r ;;
  model_entry <~ model_entry_of metadata github_username model_name ;;
  model_map' <~ merge_model_map (fst current) model_entry
                  (model_dir_of github_username model_name) ;;
  name <~ py_getitem metadata "name" ;;
  Val (model_map_data_of name (json_dumps model_map') branch (snd current)).

Definition catalog_get (branch : string) : event :=
  Get (ep_contents REPO_OWNER REPO_NAME model_map_path (Some branch))
    token_headers.

Definition catalog_put (data : value) : event :=
  Put (ep_contents REPO_OWNER REPO_NAME model_map_path None) token_headers data.

Lemma update_model_map_run metadata github_username model_name branch h :
  update_model_map metadata github_username model_name branch h =
  match respond h (catalog_get branch) with
  | Raised _ => (Val false, [catalog_get branch])
  | Replied r =>
      match catalog_write metadata github_username model_name branch r with
      | Exn _ => (Val false, [catalog_get branch])
      | Val data =>
          match respond (h ++ [catalog_get branch]) (catalog_put data) with
          | Raised _ => (Val false, [catalog_get branch; catalog_put data])
          | Replied r' =>
              (Val (status_in [200; 201] (status_code r')),
               [catalog_get branch; catalog_put data])
          end
      end
  end.
Proof.
  unfold update_model_map, catalog_write, catalog_get, catalog_put.
  unfold_monad. next_case; [done|].
  destruct (current_model_map r) as [current|e]; [|done]. cbn [exc_bind].
  destruct (model_entry_of _ _ _) as [model_entry|e]; [|done]. cbn [exc_bind].
  destruct (merge_model_map _ _ _) as [model_map'|e]; [|done]. cbn [exc_bind].
  destruct (py_getitem metadata "name") as [name|e]; [|done]. cbn [exc_bind].
  next_case; done.
Qed.









(** *** The capability check *)

Definition repo_get : event := Get (ep_repo REPO_OWNER REPO_NAME) token_headers.

(** [permissions.get(k, False)], as a truth value *)
Definition permission (k : string) (permissions : list (string * value)) : bool :=
  truthy (default (VBool false) (dict_lookup k permissions)).

(** What the spec asks of the repository lookup: status 200 and a
    permissions object reporting push or admin. *)
Definition grants_push (answer : reply) : bool :=
  match answer with
  | Raised _ => false
  | Replied r =>
      (status_code r =? 200)
      && match json_body r with
         | Some (VDict body) =>
             match default (VDict []) (dict_lookup "permissions" body) with
             | VDict permissions =>
                 permission "push" permissions || permission "admin" permissions
             | _ => false
             end
         | _ => false
         end
  end.

(** The value [has_push_access] computes from the lookup. *)
Definition push_answer (answer : reply) : value :=
  match answer with
  | Raised _ => VBool false
  | Replied r =>
      if status_code r =? 200 then
        match (body <~ response_json r ;;
               permissions <~ py_get body "permissions" (VDict []) ;;
               push <~ py_get permissions "push" (VBool false) ;;
               if truthy push then Val push
               else py_get permissions "admin" (VBool false)) with
        | Val v => v
        | Exn _ => VBool false
        end
      else VBool false
  end.

Lemma has_push_access_run h :
  has_push_access h = (Val (push_answer (respond h repo_get)), [repo_get]).
Proof.
  unfold has_push_access, push_answer, repo_get. unfold_monad.
  next_case; [done|].
  destruct (status_code r =? 200); [|done].
  match goal with |- context [exc_bind ?x ?f] => destruct (exc_bind x f) end;
    done.
Qed.

Lemma push_answer_truthy answer :
  truthy (push_answer answer) = grants_push answer.
Proof.
  destruct answer as [e|r]; [done|]. unfold push_answer, grants_push.
  destruct (status_code r =? 200); [|done]. cbn [andb].
  unfold response_json. destruct (json_body r) as [[| | | | |body]|]; try done.
  cbn [exc_bind py_get]. unfold default, from_option, id.
  destruct (match dict_lookup "permissions" body with
            | Some x => x | None => VDict [] end)
    as [| | | | |permissions]; try done.
  cbn [exc_bind py_get]. unfold permission, default, from_option, id.
  destruct (truthy match dict_lookup "push" permissions with
                   | Some x => x | None => VBool false end) eqn:Hpush;
    cbn [orb]; [exact Hpush | reflexivity].
Qed.

(** C5: the capability check never raises; its answer is true exactly when
    the lookup replies 200 with permissions reporting push or admin. *)
Theorem has_push_access_fails_closed (h : list event) :
  (exists v, has_push_access h = (Val v, [repo_get])
             /\ truthy v = grants_push (respond h repo_get))
  /\ (forall r body,
        respond h repo_get = Replied r -> status_code r = 200 ->
        json_body r = Some (VDict body) ->
        dict_lookup "permissions" body
          = Some (VDict [("push", VBool false); ("admin", VBool true)]) ->
        has_push_access h = (Val (VBool true), [repo_get]))
  /\ (forall r body,
        respond h repo_get = Replied r -> status_code r = 200 ->
        json_body r = Some (VDict body) ->
        dict_lookup "permissions" body
          = Some (VDict [("push", VBool false); ("admin", VBool false)]) ->
        has_push_access h = (Val (VBool false), [repo_get]))
  /\ (forall r,
        respond h repo_get = Replied r -> status_code r <> 200 ->
        has_push_access h = (Val (VBool false), [repo_get]))
  /\ (forall e,
        respond h repo_get = Raised e ->
        has_push_access h = (Val (VBool false), [repo_get])).
Proof.
  rewrite has_push_access_run. repeat split.
  - eexists. split; [reflexivity | apply push_answer_truthy].
  - intros r body -> Hs Hb Hp. unfold push_answer, response_json.
    rewrite Hs, Hb. cbn [Z.eqb Pos.eqb exc_bind py_get]. rewrite Hp.
    reflexivity.
  - intros r body -> Hs Hb Hp. unfold push_answer, response_json.
    rewrite Hs, Hb. cbn [Z.eqb Pos.eqb exc_bind py_get]. rewrite Hp.
    reflexivity.
  - intros r -> Hs. unfold push_answer.
    destruct (status_code r =? 200) eqn:E; [|done].
    apply Z.eqb_eq in E. done.
  - intros e ->. reflexivity.
Qed.

(** *** Branch creation *)


Definition base_lookup (owner base_branch : string) : event :=
  Get (ep_ref owner REPO_NAME base_branch) token_headers.

Definition ref_post (owner branch_name : string) (base_sha : value) : event :=
  Post (ep_refs owner REPO_NAME) token_headers
    (Some (ref_data branch_name base_sha)).

(** From the reply to the base lookup on: shared by both variants, which
    differ in the owner and in the statuses [accepts] takes for success.
    [done] holds the events made so far. *)
Definition create_ref_from (owner branch_name : string) (accepts : Z -> bool)
  (h done : list event) (r : response) : exc bool * list event :=
  if status_code r =? 200 then
    match object_sha r with
    | Exn _ => (Val false, done)
    | Val base_sha =>
        if negb (truthy base_sha) then (Val false, done)
        else
          let post := ref_post owner branch_name base_sha in
          match respond (h ++ done) post with
          | Raised _ => (Val false, done ++ [post])
          | Replied p => (Val (accepts (status_code p)), done ++ [post])
          end
    end
  else (Val false, done).



Lemma create_branch_in_fork_run branch_name github_username h :
  create_branch_in_fork branch_name github_username h =
  let owner := format_value github_username in
  let lookup := base_lookup owner "main" in
  match respond h lookup with
  | Raised _ => (Val false, [lookup])
  | Replied first =>
      if status_code first =? 200 then
        create_ref_from owner branch_name (status_in [200; 201; 422]) h
          [lookup] first
      else
        match respond (h ++ [lookup; Sleep 5]) lookup with
        | Raised _ => (Val false, [lookup; Sleep 5; lookup])
        | Replied second =>
            create_ref_from owner branch_name (status_in [200; 201; 422]) h
              [lookup; Sleep 5; lookup] second
        end
  end.
Proof.
  unfold create_branch_in_fork, create_ref_from, base_lookup, ref_post.
  unfold_monad. cbv zeta. next_case; [done|].
  destruct (status_code r =? 200) eqn:Hfirst; cbn [negb].
  - norm_events. rewrite Hfirst.
    destruct (object_sha r) as [base_sha|e]; [|done].
    destruct (truthy base_sha); cbn [negb]; [|done].
    next_case; done.
  - next_case; [done|].
    destruct (status_code r0 =? 200); [|done].
    destruct (object_sha r0) as [base_sha|e]; [|done].
    destruct (truthy base_sha); cbn [negb]; [|done].
    next_case; done.
Qed.



(** *** File writes and pull requests *)

Definition file_check (owner path branch : string) : event :=
  Get (ep_contents owner REPO_NAME path (Some branch)) token_headers.

Definition file_put (owner path : string) (data : value) : event :=
  Put (ep_contents owner REPO_NAME path None) token_headers data.

Definition pull_post (title body head : string) : event :=
  Post (ep_pulls REPO_OWNER REPO_NAME) token_headers
    (Some (pull_data title body head)).

(** The [data] a file write sends, given the reply to the existence check:
    the revision marker on the update path, none on the create path. *)
Definition write_data (content commit_message branch : string) (c : response)
  : exc value :=
  if status_code c =? 200 then
    body <~ response_json c ;;
    file_sha <~ py_get body "sha" VNone ;;
    Val (file_data commit_message content branch (Some file_sha))
  else Val (file_data commit_message content branch None).

Lemma write_file_run owner path content commit_message branch h :
  write_file owner path content commit_message branch h =
  let check := file_check owner path branch in
  match respond h check with
  | Raised _ => (Val false, [check])
  | Replied c =>
      match write_data content commit_message branch c with
      | Exn _ => (Val false, [check])
      | Val data =>
          let put := file_put owner path data in
          match respond (h ++ [check]) put with
          | Raised _ => (Val false, [check; put])
          | Replied r =>
              (Val (status_in [200; 201] (status_code r)), [check; put])
          end
      end
  end.
Proof.
  unfold write_file, write_data, file_check, file_put, response_json.
  unfold_monad. cbv zeta. next_case; [done|].
  destruct (status_code r =? 200).
  - destruct (json_body r) as [body|]; [|done]. norm_events.
    destruct (py_get body "sha" VNone) as [file_sha|e]; [|done].
    next_case; done.
  - next_case; done.
Qed.


(** [pr_data.get("html_url")] on a 201, [None] otherwise. *)
Definition pull_answer (answer : reply) : value :=
  match answer with
  | Raised _ => VNone
  | Replied r =>
      if status_code r =? 201 then
        match (pr_data <~ response_json r ;; py_get pr_data "html_url" VNone)
        with
        | Val pr_url => pr_url
        | Exn _ => VNone
        end
      else VNone
  end.

Lemma post_pull_run title body head h :
  post_pull title body head h =
  (Val (pull_answer (respond h (pull_post title body head))),
   [pull_post title body head]).
Proof.
  unfold post_pull, pull_answer, pull_post, response_json.
  unfold_monad. cbv zeta. next_case; [done|].
  destruct (status_code r =? 201); [|done].
  destruct (json_body r) as [pr_data|]; [|done]. norm_events.
  destruct (py_get pr_data "html_url" VNone); done.
Qed.

(** *** Repository bootstrap *)






(** *** The user lookup *)

Definition user_get : event :=
  Get ep_user (auth_headers (os_environ_get "GITHUB_API_TOKEN")).

Definition login_answer (answer : reply) : value :=
  match answer with
  | Raised _ => VNone
  | Replied r =>
      match (_ <~ raise_for_status r ;;
             body <~ response_json r ;;
             py_get body "login" VNone) with
      | Val login => login
      | Exn _ => VNone
      end
  end.

Lemma get_github_username_run h :
  get_github_username h =
  if truthy (os_environ_get "GITHUB_API_TOKEN")
  then (Val (login_answer (respond h user_get)), [user_get])
  else (Val VNone, []).
Proof.
  unfold get_github_username, login_answer, user_get. cbv zeta.
  destruct (truthy _); [|done]. cbn [negb]. unfold_monad.
  next_case; [done|].
  destruct (raise_for_status r) as [[]|e]; [|done]. norm_events.
  destruct (response_json r) as [body|e]; [|done]. norm_events.
  cbn [exc_bind]. destruct (py_get body "login" VNone); done.
Qed.

(** The dict [generate_model_metadata] returns for a given login. *)
Definition metadata_for (name : string) (description tags cid model_path : value)
  (login : value) : value :=
  let github_username := if truthy login then login else VStr "anonymous" in
  let metadata :=
    metadata_literal name description github_username tags cid
      utc_now_isoformat in
  VDict (if truthy model_path
         then match directory_size_mb model_path with
              | Val size_mb => dict_set "size_mb" size_mb metadata
              | Exn _ => metadata
              end
         else metadata).

Lemma generate_model_metadata_run name description tags cid model_path h :
  generate_model_metadata name description tags cid model_path h =
  let (login, o) := get_github_username h in
  match login with
  | Val login =>
      (Val (metadata_for name description tags cid model_path login), o)
  | Exn e => (Exn e, o)
  end.
Proof.
  unfold generate_model_metadata, metadata_for, bind, ret.
  destruct (get_github_username h) as [[login|e] o]; [|done].
  by rewrite app_nil_r.
Qed.

(** *** The fork *)

Definition fork_get (login : value) : event :=
  Get (ep_repo (format_value login) REPO_NAME) token_headers.

Definition forks_post : event :=
  Post (ep_forks REPO_OWNER REPO_NAME) token_headers None.

(** [return True, response.json().get("html_url")], inside the [try] *)
Definition fork_answer (r : response) : bool * value :=
  match (body <~ response_json r ;; py_get body "html_url" VNone) with
  | Val html_url => (true, html_url)
  | Exn _ => (false, VNone)
  end.

Lemma get_or_create_fork_run h :
  get_or_create_fork h =
  match get_github_username h with
  | (Exn _, o1) => (Val (false, VNone), o1)
  | (Val login, o1) =>
      match respond (h ++ o1) (fork_get login) with
      | Raised _ => (Val (false, VNone), o1 ++ [fork_get login])
      | Replied r =>
          if status_code r =? 200
          then (Val (fork_answer r), o1 ++ [fork_get login])
          else
            match respond (h ++ o1 ++ [fork_get login]) forks_post with
            | Raised _ => (Val (false, VNone), o1 ++ [fork_get login; forks_post])
            | Replied r2 =>
                (Val (if status_in [200; 201; 202] (status_code r2)
                      then fork_answer r2 else (false, VNone)),
                 o1 ++ [fork_get login; forks_post])
            end
      end
  end.
Proof.
  unfold get_or_create_fork, fork_answer, fork_get, forks_post, response_json.
  unfold_monad. cbv zeta.
  destruct (get_github_username h) as [[login|e] o1]; [|by norm_events].
  next_case; [done|].
  destruct (status_code r =? 200).
  - destruct (json_body r) as [body|]; [|by norm_events]. norm_events.
    destruct (py_get body "html_url" VNone); by norm_events.
  - next_case; [done|].
    destruct (status_in [200; 201; 202] (status_code r0)); [|by norm_events].
    destruct (json_body r0) as [body|]; [|by norm_events]. norm_events.
    destruct (py_get body "html_url" VNone); by norm_events.
Qed.

(** A fork that is found or made: the user lookup, the fork lookup, and a
    fork request when the lookup did not answer 200. *)
Lemma get_or_create_fork_true h fork_url o :
  get_or_create_fork h = (Val (true, fork_url), o) ->
  exists login o1,
    get_github_username h = (Val login, o1)
    /\ (o = o1 ++ [fork_get login] \/ o = o1 ++ [fork_get login; forks_post]).
Proof.
  rewrite get_or_create_fork_run.
  destruct (get_github_username h) as [[login|e] o1]; [|done].
  destruct (respond _ _) as [e|r]; [done|].
  destruct (status_code r =? 200).
  - intros [= _ <-]. exists login, o1. auto.
  - destruct (respond _ _) as [e|r2]; [done|].
    intros [= _ <-]. exists login, o1. auto.
Qed.

(** A fork branch that is made: the base lookup, once or twice with the
    pause in between, and the ref request. *)
Lemma create_branch_in_fork_true branch_name github_username h o :
  create_branch_in_fork branch_name github_username h = (Val true, o) ->
  let owner := format_value github_username in
  exists base_sha,
    o = [base_lookup owner "main"; ref_post owner branch_name base_sha]
    \/ o = [base_lookup owner "main"; Sleep 5; base_lookup owner "main";
            ref_post owner branch_name base_sha].
Proof.
  rewrite create_branch_in_fork_run. cbv zeta. unfold create_ref_from.
  destruct (respond h _) as [e|first]; [done|].
  destruct (status_code first =? 200).
  - destruct (object_sha first) as [base_sha|e]; [|done].
    destruct (truthy base_sha); cbn [negb]; [|done].
    destruct (respond _ _) as [e|p]; [done|].
    intros [= _ <-]. exists base_sha. auto.
  - destruct (respond _ _) as [e|second]; [done|].
    destruct (status_code second =? 200); [|done].
    destruct (object_sha second) as [base_sha|e]; [|done].
    destruct (truthy base_sha); cbn [negb]; [|done].
    destruct (respond _ _) as [e|p]; [done|].
    intros [= _ <-]. exists base_sha. auto.
Qed.

(** *** Events that read or write the catalog file *)

Definition touches_catalog (ev : event) : bool :=
  match ev with
  | Get (ep_contents _ _ path _) _ => String.eqb path model_map_path
  | Put (ep_contents _ _ path _) _ _ => String.eqb path model_map_path
  | Post (ep_contents _ _ path _) _ _ => String.eqb path model_map_path
  | _ => false
  end.

Definition off_catalog (ev : event) : Prop := touches_catalog ev = false.

(** [update_model_map] opens with the catalog read, so a run that holds no
    catalog event did not call it. *)
Lemma update_model_map_touches metadata github_username model_name branch h r o :
  update_model_map metadata github_username model_name branch h = (r, o) ->
  exists rest, o = catalog_get branch :: rest
               /\ touches_catalog (catalog_get branch) = true.
Proof.
  rewrite update_model_map_run. intros Hrun. split_and?.
  repeat case_match; injection Hrun as _ <-; eexists; split; reflexivity.
Qed.

Ltac emits_from run_lemma :=
  let h := fresh "h" in let r := fresh "r" in let o := fresh "o" in
  let Hrun := fresh "Hrun" in
  intros h r o; rewrite run_lemma; cbv zeta; intros Hrun;
  repeat case_match; injection Hrun as _ <-;
  rewrite ?Forall_app; repeat split; repeat constructor.

Lemma get_github_username_off_catalog : emits off_catalog get_github_username.
Proof. emits_from get_github_username_run. Qed.


Lemma generate_model_metadata_off_catalog name description tags cid model_path :
  emits off_catalog (generate_model_metadata name description tags cid model_path).
Proof.
  intros h r o. rewrite generate_model_metadata_run.
  destruct (get_github_username h) as [login o1] eqn:Hu.
  apply get_github_username_off_catalog in Hu.
  destruct login; by intros [= _ <-].
Qed.





Lemma create_each_emits (P : event -> Prop)
  (write : string -> string -> string -> M bool) (files : list file_info) :
  Forall (fun f => emits P (write (fi_path f) (fi_content f) (fi_message f)))
    files ->
  emits P (create_each write files).
Proof.
  induction 1 as [|f files Hf _ IH]; simpl.
  - apply emits_ret.
  - apply emits_bind; [exact Hf|]. intros ok. apply emits_if; [exact IH|].
    apply emits_ret.
Qed.

Lemma create_each_total (write : string -> string -> string -> M bool)
  (files : list file_info) :
  (forall path content message, total (write path content message)) ->
  total (create_each write files).
Proof.
  intros Hw. induction files as [|f files IH]; simpl.
  - apply total_ret.
  - apply total_bind; [apply Hw|]. intros ok.
    apply total_if; [exact IH | apply total_ret].
Qed.






(** *** The fork-based flow *)

Section ForkFlow.
Variables (model_name : string) (description ipfs_cid github_username : value)
  (branch_name : string) (metadata : value) (readme_content : string).

Let flow : M value :=
  fork_flow model_name description ipfs_cid github_username branch_name
    metadata readme_content.
Let owner : string := format_value github_username.
Let model_dir : string := model_dir_of github_username (slug model_name).
Let body : string :=
  pr_body model_name github_username
    (py_or description (VStr "No description provided")) ipfs_cid.

Lemma fork_flow_total : total flow.
Proof.
  unfold flow, fork_flow.
  apply total_bind; [apply total_try_except|]. intros fork.
  apply total_if; [apply total_ret|].
  apply total_bind; [apply total_try_except|]. intros created.
  apply total_if; [apply total_ret|].
  apply total_bind.
  { apply create_each_total. intros. apply total_try_except. }
  intros files_ok. apply total_if; [apply total_ret|].
  apply total_bind; [apply total_try_except|]. intros pr_url.
  apply total_if; apply total_ret.
Qed.


End ForkFlow.

(** *** [create_model_pr] up to the choice of flow *)

Lemma get_github_username_total : total get_github_username.
Proof.
  intros h. rewrite get_github_username_run. destruct (truthy _); eauto.
Qed.

Lemma metadata_for_truthy name description tags cid model_path login :
  truthy (metadata_for name description tags cid model_path login) = true.
Proof.
  unfold metadata_for, metadata_literal. cbv zeta.
  destruct (truthy model_path); [|done].
  destruct (directory_size_mb model_path); done.
Qed.

(** [tags_list] of [create_model_pr] *)
Definition tags_list_for (tags : value) : value :=
  match tags with
  | VStr s => VList (tags_list_of s)
  | _ => tags
  end.

(** The result of the chosen flow, seen through the outer [try]. *)
Definition caught (r : exc value) : value :=
  match r with
  | Val v => v
  | Exn _ => VNone
  end.

Lemma create_model_pr_run model_name description tags ipfs_cid model_path
  h u o1 hp o2 login o3 :
  truthy (os_environ_get "GITHUB_API_TOKEN") = true ->
  get_github_username h = (Val u, o1) ->
  truthy u = true ->
  has_push_access (h ++ o1) = (Val hp, o2) ->
  get_github_username (h ++ o1 ++ o2) = (Val login, o3) ->
  create_model_pr model_name description tags ipfs_cid model_path h =
  let branch_name := branch_name_of model_name time_time in
  let metadata :=
    metadata_for model_name description (tags_list_for tags) ipfs_cid
      model_path login in
  match generate_model_tree [model_path] with
  | Exn _ => (Val VNone, o1 ++ o2 ++ o3)
  | Val model_tree =>
      match generate_readme metadata model_path with
      | Exn _ => (Val VNone, o1 ++ o2 ++ o3)
      | Val readme_content =>
          let (r, o4) :=
            (if truthy hp
             then direct_push_flow model_name description ipfs_cid u
                    branch_name metadata model_tree readme_content
             else fork_flow model_name description ipfs_cid u branch_name
                    metadata readme_content) (h ++ o1 ++ o2 ++ o3) in
          (Val (caught r), o1 ++ o2 ++ o3 ++ o4)
      end
  end.
Proof.
  intros Htoken Hu Htruthy Hpush Hlogin. unfold create_model_pr. cbv zeta.
  rewrite Htoken. cbn [negb]. rewrite (bind_val _ _ _ _ _ Hu).
  rewrite Htruthy. cbn [negb]. rewrite (bind_val _ _ _ _ _ Hpush).
  unfold try_except at 1. unfold bind at 1.
  rewrite generate_model_metadata_run. norm_events. rewrite Hlogin.
  fold (tags_list_for tags). rewrite metadata_for_truthy. cbn [negb].
  unfold bind at 1, lift at 1.
  destruct (generate_model_tree [model_path]) as [model_tree|e];
    [|unfold ret; by norm_events].
  norm_events. unfold bind at 1, lift at 1.
  destruct (generate_readme _ model_path) as [readme_content|e];
    [|unfold ret; by norm_events].
  norm_events.
  match goal with
  | |- context [(if truthy hp then ?a else ?b) ?hist] =>
      destruct ((if truthy hp then a else b) hist) as [[v|e] o4]
  end; unfold ret; by norm_events.
Qed.


(** *** The direct-push flow *)



Section DirectFlow.
Variables (model_name : string) (description ipfs_cid github_username : value)
  (branch_name : string) (metadata model_tree : value)
  (readme_content : string).

Let model_dir : string := model_dir_of github_username (slug model_name).
Let title : string := pr_title model_name.
Let body : string :=
  pr_body model_name github_username
    (py_or description (VStr "No description provided")) ipfs_cid.





End DirectFlow.





End RunLemmas.

(** ** The commands *)

(** [stops_with code m]: when [m] ends the process it is with [code]. *)
Definition stops_with {A} (code : Z) (m : C A) : Prop :=
  forall h c o, m h = (Val (Stop c), o) -> c = code.

(** [fails_with code m]: [m] never returns; the process ends with [code]. *)
Definition fails_with {A} (code : Z) (m : C A) : Prop :=
  forall h, exit_status (fst (m h)) = code
            /\ forall a, fst (m h) <> Val (Go a).

Section Commands.
Context `{L : PyLib} `{W : World}.

Lemma run_stops {A} code (m : M A) : stops_with code (run m).
Proof.
  intros h c o. unfold run, bind, ret.
  destruct (m h) as [[a|e] o1]; [|done]. intros [=].
Qed.

Lemma say_stops code line : stops_with code (say line).
Proof. apply run_stops. Qed.

Lemma cret_stops {A} code (a : A) : stops_with code (cret a).
Proof. intros h c o [=]. Qed.

Lemma sys_exit_stops {A} code : stops_with code (@sys_exit A code).
Proof. by intros h c o [= ->]. Qed.

Lemma cbind_stops {A B} code (m : C A) (f : A -> C B) :
  stops_with code m -> (forall a, stops_with code (f a)) ->
  stops_with code (cbind m f).
Proof.
  intros Hm Hf h c o. unfold cbind, bind.
  destruct (m h) as [[[a|c1]|e] o1] eqn:Em; [| |done].
  - destruct (f a (h ++ o1)) as [r o2] eqn:Ef. intros [= -> _].
    by eapply Hf.
  - unfold ret. intros [= -> _]. by eapply Hm.
Qed.

Lemma cbind_fails {A B} (m : C A) (f : A -> C B) :
  stops_with 1 m -> (forall a, fails_with 1 (f a)) -> fails_with 1 (cbind m f).
Proof.
  intros Hm Hf h. unfold cbind, bind.
  destruct (m h) as [[[a|c]|e] o1] eqn:Em.
  - destruct (Hf a (h ++ o1)) as [Hcode Hgo].
    destruct (f a (h ++ o1)) as [r o2]. done.
  - apply Hm in Em as ->. done.
  - done.
Qed.

Lemma raise_fails {A B} (e : pyexn) (f : A -> C B) :
  fails_with 1 (cbind (run (lift (Exn e))) f).
Proof. intros h. done. Qed.

Lemma process_hf_stops path : stops_with 1 (process_hf path).
Proof.
  unfold process_hf. destruct path; try apply cret_stops.
  destruct (is_hf _); [|apply cret_stops].
  apply cbind_stops; [apply say_stops|]. intros _.
  apply cbind_stops; [apply run_stops|]. intros model_path.
  destruct (negb _); [|apply cret_stops].
  apply cbind_stops; [apply say_stops|]. intros _. apply sys_exit_stops.
Qed.

(** C9: [generate_files] calls [generate_readme] with four positional
    arguments, two more than it takes.  The call raises [TypeError]; a run
    that reaches it ends there with the exception, and no run of the
    command returns: each ends the process with status 1. *)
Theorem generate_files_never_completes
  (path : value) (name : string) (description : value) (tags : string)
  (cid : value) (output : string) (h : list event) :
  call_generate_readme [VStr name; description; VList (tags_list_of tags); cid]
  = Exn TypeError
  /\ fst (generate_files_output name description tags cid output h)
     = Exn TypeError
  /\ exit_status (fst (generate_files path name description tags cid output h))
     = 1
  /\ (forall done,
        fst (generate_files path name description tags cid output h)
        <> Val (Go done)).
Proof.
  split; [done|]. split.
  { unfold generate_files_output, cbind, run, bind at 1 2.
    rewrite generate_model_metadata_run.
    destruct (get_github_username_total h) as (login & o & Eu).
    by rewrite Eu. }
  assert (Hout : forall cid', fails_with 1
            (generate_files_output name description tags cid' output)).
  { intros cid'. unfold generate_files_output.
    apply cbind_fails; [apply run_stops|]. intros metadata.
    apply raise_fails. }
  assert (Hall : fails_with 1
            (generate_files path name description tags cid output)).
  { unfold generate_files.
    apply cbind_fails; [apply run_stops|]. intros _.
    apply cbind_fails.
    { destruct (negb _); [|apply cret_stops].
      apply cbind_stops; [apply say_stops|]. intros _. apply say_stops. }
    intros _. apply cbind_fails; [apply process_hf_stops|]. intros path'.
    apply cbind_fails; [|intros cid'; apply Hout].
    destruct (negb (truthy cid) && truthy path').
    - apply cbind_stops; [apply say_stops|]. intros _.
      apply cbind_stops; [apply run_stops|]. intros cid'.
      destruct (negb _).
      + apply cbind_stops; [apply say_stops|]. intros _. apply sys_exit_stops.
      + apply cbind_stops; [apply say_stops|]. intros _.
        apply cbind_stops; [apply say_stops|]. intros _. apply cret_stops.
    - destruct (negb (truthy cid) && negb (truthy path')).
      + apply cbind_stops; [apply say_stops|]. intros _. apply sys_exit_stops.
      + apply cret_stops. }
  destruct (Hall h) as [Hcode Hgo]. split; [exact Hcode | exact Hgo].
Qed.

(** C8, at the input where the code departs from it: [download_model]
    returns a falsy result without raising.  The command prints the failure
    and returns, so the process ends with status 0, not 1. *)
Theorem download_failure_exits_zero (model_path output : string)
  (result : value) (h : list event) :
  download_model model_path (Some output) = Val result ->
  truthy result = false ->
  download model_path output h
  = (Val (Go tt), [Print "[red]Failed to download model[/red]"])
  /\ exit_status (fst (download model_path output h)) = 0.
Proof.
  intros Hresult Hfalsy.
  assert (Hrun : download model_path output h
                 = (Val (Go tt), [Print "[red]Failed to download model[/red]"])).
  { unfold download, try_except, cbind, run, say, console_print, cret, bind,
      lift, ret. rewrite Hresult. norm_events. rewrite Hfalsy. by norm_events. }
  by rewrite Hrun.
Qed.

Lemma prefix_app (s t : string) : String.prefix s (s +:+ t) = true.
Proof.
  induction s as [|c s IH]; [by destruct t|].
  simpl. by destruct (ascii_dec c c).
Qed.

Lemma is_hf_prefixed (model_id : string) :
  is_hf (VStr ("hf://" +:+ model_id)) = true.
Proof. unfold is_hf. by rewrite prefix_app. Qed.

(** The sibling path: [upload] meets the same failed download and ends the
    process with status 1. *)
Lemma upload_failed_download_exits_one (model_id : string)
  (name description tags : option string) (result : value) (h : list event) :
  truthy (os_environ_get "GITHUB_API_TOKEN") = true ->
  download_model model_id None = Val result ->
  truthy result = false ->
  upload (VStr ("hf://" +:+ model_id)) name description tags h
  = (Val (Stop 1),
     [Print ("Downloading model from HuggingFace: " +:+ model_id);
      Print "[red]Failed to download model.[/red]"]).
Proof.
  intros Htoken Hresult Hfalsy. unfold upload. rewrite Htoken. cbn [negb].
  unfold process_hf. rewrite is_hf_prefixed.
  change (str_drop 5 ("hf://" +:+ model_id)) with model_id.
  unfold cbind, run, say, console_print, sys_exit, bind, lift, ret.
  rewrite Hresult. norm_events. rewrite Hfalsy. by norm_events.
Qed.
End Commands.

(** ** The wrapper against [create_model_pr] *)

Section WrapperFlow.
Context `{L : PyLib} `{W : World}.



Lemma ret_inv {A} (a b : A) h o : ret a h = (Val b, o) -> a = b /\ o = [].
Proof. unfold ret. by intros [= -> <-]. Qed.














End WrapperFlow.

(** * Further properties

    What the code shows beyond C1 to C10: the shape of the names it builds,
    the catalog merge on arbitrary lists, and the edge behaviour of each
    request function. *)

(** ** Slugs and tags *)













Definition is_comma_or_space (c : ascii) : bool :=
  Ascii.eqb c ","%char || is_space c.











(** ** The catalog merge on any list *)

(** What the loop sees in an element: [passes p model] when the loop reads
    its path and goes on, [matches p model] when it stops there. *)
Definition passes (p : string) (model : value) : Prop :=
  exists q, py_get model "path" (VStr "") = Val q /\ py_eq_str q p = false.

Definition matches (p : string) (model : value) : Prop :=
  exists q, py_get model "path" (VStr "") = Val q /\ py_eq_str q p = true.

(** An entry stored under another path than [p]. *)
Definition other_path (p : string) (model : value) : bool :=
  negb (py_eq_str (model_path_of model) p).

Section MergeAnyList.
Implicit Types (models pre rest : list value) (p : string).

Lemma find_model_none p models k :
  find_model p models k = Val None -> Forall (passes p) models.
Proof.
  revert k. induction models as [|model models IH]; intros k; [constructor|].
  simpl. destruct (py_get model "path" (VStr "")) as [q|e] eqn:Hq; [|done].
  destruct (py_eq_str q p) eqn:Hp; [done|]. intros Hrest.
  constructor; [by exists q | by eapply IH].
Qed.

Lemma find_model_some p models k i :
  find_model p models k = Val (Some i) ->
  exists pre model rest,
    models = pre ++ model :: rest
    /\ i = (k + length pre)%nat
    /\ Forall (passes p) pre
    /\ matches p model.
Proof.
  revert k. induction models as [|model models IH]; intros k; [done|].
  simpl. destruct (py_get model "path" (VStr "")) as [q|e] eqn:Hq; [|done].
  destruct (py_eq_str q p) eqn:Hp.
  - intros [= <-]. exists [], model, models. simpl.
    split; [done|]. split; [lia|]. split; [constructor | by exists q].
  - intros Hrest. apply IH in Hrest as (pre & m & rest & -> & -> & Hpre & Hm).
    exists (model :: pre), m, rest. simpl.
    split; [done|]. split; [lia|]. split; [|done].
    constructor; [by exists q | done].
Qed.

Lemma find_model_passes p pre models k :
  Forall (passes p) pre ->
  find_model p (pre ++ models) k = find_model p models (k + length pre)%nat.
Proof.
  intros Hpre. revert k.
  induction Hpre as [|model pre (q & Hq & Hp) _ IH]; intros k; simpl.
  - f_equal. lia.
  - rewrite Hq, Hp, IH. f_equal. lia.
Qed.

Lemma find_model_matches p model rest k :
  matches p model -> find_model p (model :: rest) k = Val (Some k).
Proof. intros (q & Hq & Hp). simpl. by rewrite Hq, Hp. Qed.

Lemma find_model_non_dict p model rest k :
  (forall d, model <> VDict d) ->
  find_model p (model :: rest) k = Exn AttributeError.
Proof. intros Hnot. destruct model; try done. by destruct (Hnot d). Qed.

Lemma matches_entry p (e : list (string * value)) :
  dict_lookup "path" e = Some (VStr p) -> matches p (VDict e).
Proof.
  intros He. exists (VStr p). simpl. rewrite He.
  split; [done|]. apply String.eqb_refl.
Qed.

Lemma passes_other p model : passes p model -> other_path p model = true.
Proof.
  intros (q & Hq & Hp). unfold other_path, model_path_of. by rewrite Hq, Hp.
Qed.

Lemma matches_not_other p model : matches p model -> other_path p model = false.
Proof.
  intros (q & Hq & Hp). unfold other_path, model_path_of. by rewrite Hq, Hp.
Qed.

(** The outcome of a merge that does not raise: the first match is
    replaced, or there is none and the entry goes at the end. *)
Lemma merge_models_inv p models model_entry merged :
  merge_models models model_entry p = Val merged ->
  (exists pre model rest,
     models = pre ++ model :: rest
     /\ merged = pre ++ model_entry :: rest
     /\ Forall (passes p) pre
     /\ matches p model)
  \/ (merged = models ++ [model_entry] /\ Forall (passes p) models).
Proof.
  unfold merge_models.
  destruct (find_model p models 0) as [[i|]|e] eqn:Hfind; [| |done].
  - intros [= <-]. left.
    apply find_model_some in Hfind as (pre & model & rest & -> & -> & Hpre & Hm).
    exists pre, model, rest. split; [done|]. split; [|done].
    by rewrite (insert_app_r_alt pre) by lia;
      replace (0 + length pre - length pre)%nat with 0%nat by lia.
  - intros [= <-]. right. split; [done|]. by eapply find_model_none.
Qed.
End MergeAnyList.

(** X3: merging is idempotent.  Once an entry has been merged, merging it
    again leaves the list as it is: a submission that is repeated does not
    add a second entry for its path. *)
Theorem merge_models_idempotent (models merged : list value)
  (e : list (string * value)) (p : string) :
  dict_lookup "path" e = Some (VStr p) ->
  merge_models models (VDict e) p = Val merged ->
  merge_models merged (VDict e) p = Val merged.
Proof.
  intros He Hmerge. pose proof (matches_entry p e He) as Hmatch.
  apply merge_models_inv in Hmerge
    as [(pre & model & rest & -> & -> & Hpre & _) | [-> Hall]];
    unfold merge_models.
  - rewrite (find_model_passes _ _ _ _ Hpre), (find_model_matches _ _ _ _ Hmatch).
    by rewrite (insert_app_r_alt pre) by lia;
      replace (0 + length pre - length pre)%nat with 0%nat by lia.
  - rewrite (find_model_passes _ _ _ _ Hall), (find_model_matches _ _ _ _ Hmatch).
    by rewrite (insert_app_r_alt models) by lia;
      replace (0 + length models - length models)%nat with 0%nat by lia.
Qed.

(** X4: a merge never loses an entry stored under another path.  The
    entries of other paths are the same before and after, in the same
    order; the merged list holds the new entry, and it is as long as the
    old one or longer by one. *)
Theorem merge_models_keeps_other_paths (models merged : list value)
  (e : list (string * value)) (p : string) :
  dict_lookup "path" e = Some (VStr p) ->
  merge_models models (VDict e) p = Val merged ->
  filter (fun model => other_path p model = true) merged
  = filter (fun model => other_path p model = true) models
  /\ In (VDict e) merged
  /\ (length models <= length merged <= S (length models))%nat.
Proof.
  intros He Hmerge. pose proof (matches_entry p e He) as Hmatch.
  apply matches_not_other in Hmatch.
  apply merge_models_inv in Hmerge
    as [(pre & model & rest & -> & -> & Hpre & Hmodel) | [-> Hall]].
  - apply matches_not_other in Hmodel. split; [|split].
    + rewrite !filter_app, !filter_cons, Hmatch, Hmodel.
      by destruct (decide (false = true)).
    + apply in_elt.
    + rewrite !length_app. simpl. lia.
  - split; [|split].
    + rewrite filter_app, filter_cons, filter_nil, Hmatch.
      destruct (decide (false = true)); [done|]. by rewrite app_nil_r.
    + apply in_elt.
    + rewrite length_app. simpl. lia.
Qed.

Lemma merge_models_at_match (pre rest : list value)
  (model model_entry : value) (p : string) :
  Forall (passes p) pre -> matches p model ->
  merge_models (pre ++ model :: rest) model_entry p
  = Val (pre ++ model_entry :: rest).
Proof.
  intros Hpre Hmatch. unfold merge_models.
  rewrite (find_model_passes _ _ _ _ Hpre), (find_model_matches _ _ _ _ Hmatch).
  by rewrite (insert_app_r_alt pre) by lia;
    replace (0 + length pre - length pre)%nat with 0%nat by lia.
Qed.

Lemma merge_models_at_non_dict (pre rest : list value)
  (model model_entry : value) (p : string) :
  Forall (passes p) pre -> (forall d, model <> VDict d) ->
  merge_models (pre ++ model :: rest) model_entry p = Exn AttributeError.
Proof.
  intros Hpre Hnot. unfold merge_models.
  by rewrite (find_model_passes _ _ _ _ Hpre), find_model_non_dict.
Qed.

(** X5: the loop stops at the first entry with the new path.  An element
    that is not an object makes the merge raise when it stands before every
    entry with that path, and goes unnoticed when it stands after one. *)
Theorem merge_models_stops_at_first_match (pre rest : list value)
  (model model_entry : value) (p : string) :
  Forall (passes p) pre ->
  (matches p model ->
   merge_models (pre ++ model :: rest) model_entry p
   = Val (pre ++ model_entry :: rest))
  /\ ((forall d, model <> VDict d) ->
      merge_models (pre ++ model :: rest) model_entry p = Exn AttributeError).
Proof.
  intros Hpre. split.
  - by apply merge_models_at_match.
  - by apply merge_models_at_non_dict.
Qed.

(** ** The catalog update at its edges *)

(** The keys [update_model_map] reads off the metadata. *)
Definition metadata_keys : list string :=
  ["name"; "author"; "description"; "tags"; "ipfs_cid"; "size_mb";
   "created_at"].

(** A parsed catalog the merge cannot work on: not an object, no list
    under ["models"], or a list with an element that is not an object before
    any entry of path [p]. *)
Inductive unusable (p : string) : value -> Prop :=
| not_an_object model_map :
    (forall d, model_map <> VDict d) -> unusable p model_map
| no_models_list d :
    (forall models, dict_lookup "models" d <> Some (VList models)) ->
    unusable p (VDict d)
| bad_entry d pre bad rest :
    dict_lookup "models" d = Some (VList (pre ++ bad :: rest)) ->
    Forall (passes p) pre ->
    (forall e, bad <> VDict e) ->
    unusable p (VDict d).

Section CatalogEdges.
Context `{L : PyLib} `{W : World}.

Lemma model_entry_of_needs metadata github_username model_name k :
  In k metadata_keys ->
  (forall x, py_getitem metadata k <> Val x) ->
  exists e, model_entry_of metadata github_username model_name = Exn e.
Proof.
  intros Hk Hnone. unfold model_entry_of.
  repeat match goal with
         | |- context [exc_bind (py_getitem metadata ?key) _] =>
             let H := fresh "Hkey" in
             destruct (py_getitem metadata key) eqn:H; cbn [exc_bind]; [|eauto]
         end.
  exfalso. unfold metadata_keys in Hk. simpl in Hk.
  repeat (destruct Hk as [<-|Hk]; [by eapply Hnone|]). done.
Qed.

Lemma unusable_raises p model_map model_entry :
  unusable p model_map ->
  exists e, merge_model_map model_map model_entry p = Exn e.
Proof.
  intros [other Hnot | d Hno | d pre bad rest Hmodels Hpre Hbad].
  - destruct other as [| | | | |d]; simpl; eauto. by destruct (Hnot d).
  - simpl. destruct (dict_lookup "models" d) as [[| | | |models|]|]; eauto.
    by destruct (Hno models).
  - simpl. rewrite Hmodels.
    rewrite (merge_models_at_non_dict pre rest bad model_entry p Hpre Hbad).
    simpl. eauto.
Qed.

(** X6: metadata that lacks one of the seven keys the catalog entry is
    built from is never written to the catalog: whatever the remote side
    answers, [update_model_map] makes the read, writes nothing and returns
    False. *)
Theorem update_model_map_needs_every_key (metadata github_username : value)
  (model_name branch : string) (h : list event) (k : string) :
  In k metadata_keys ->
  (forall x, py_getitem metadata k <> Val x) ->
  update_model_map metadata github_username model_name branch h
  = (Val false, [catalog_get branch]).
Proof.
  intros Hk Hnone. rewrite update_model_map_run.
  destruct (respond h _) as [e|r]; [done|].
  destruct (model_entry_of_needs metadata github_username model_name k Hk Hnone)
    as [e He].
  unfold catalog_write. rewrite He.
  by destruct (current_model_map r).
Qed.

(** X7: a catalog file that parses as JSON but has the wrong shape is left
    alone.  When the parsed catalog is not an object, holds no list under
    ["models"], or holds an element that is not an object before any entry of
    the new path, [update_model_map] returns False after the read and writes
    nothing; unlike a file that does not parse, which is replaced. *)
Theorem update_model_map_keeps_unusable_catalog
  (metadata github_username : value) (model_name branch : string)
  (h : list event) (r : response) (file : list (string * value))
  (content : string) (encoded model_map : value) :
  respond h (catalog_get branch) = Replied r ->
  status_code r = 200 ->
  json_body r = Some (VDict file) ->
  dict_lookup "content" file = Some encoded ->
  b64decode_utf8 encoded = Val content ->
  json_loads content = Some model_map ->
  unusable (model_dir_of github_username model_name) model_map ->
  update_model_map metadata github_username model_name branch h
  = (Val false, [catalog_get branch]).
Proof.
  intros Hget Hstatus Hbody Hencoded Hdecode Hparse Hbad.
  rewrite update_model_map_run, Hget.
  unfold catalog_write, current_model_map, response_json.
  rewrite Hstatus, Hbody. cbn [Z.eqb Pos.eqb exc_bind py_get].
  rewrite Hencoded, Hdecode. cbn [exc_bind]. rewrite Hparse. cbn [fst snd].
  destruct (model_entry_of _ _ _) as [model_entry|e]; [|done]. cbn [exc_bind].
  destruct (unusable_raises _ _ model_entry Hbad) as [e ->]. done.
Qed.


(** ** The user lookup *)

(** X9: the user lookup fails closed.  Without a token it makes no
    request and yields None; with one it makes exactly one request and never
    raises, and a result that is not None is the ["login"] of a JSON object
    the service sent with a status outside 400 to 599. *)
Theorem get_github_username_fails_closed (h : list event) :
  (truthy (os_environ_get "GITHUB_API_TOKEN") = false ->
   get_github_username h = (Val VNone, []))
  /\ (truthy (os_environ_get "GITHUB_API_TOKEN") = true ->
      exists login,
        get_github_username h = (Val login, [user_get])
        /\ (login <> VNone ->
            exists r body,
              respond h user_get = Replied r
              /\ (status_code r < 400 \/ 600 <= status_code r)
              /\ json_body r = Some (VDict body)
              /\ dict_lookup "login" body = Some login)).
Proof.
  rewrite get_github_username_run. split; intros ->; [done|].
  eexists. split; [done|]. unfold login_answer.
  destruct (respond h user_get) as [e|r]; [done|].
  unfold raise_for_status, response_json.
  destruct ((400 <=? status_code r) && (status_code r <? 600)) eqn:Hstatus;
    [done|].
  cbn [exc_bind].
  destruct (json_body r) as [[| | | | |body]|] eqn:Hbody; try done.
  cbn [exc_bind py_get]. intros Hlogin. exists r, body.
  split; [done|]. split; [lia|]. split; [done|].
  by destruct (dict_lookup "login" body).
Qed.
End CatalogEdges.

(** ** File writes, forks and branches at their edges *)

Section RequestEdges.
Context `{L : PyLib} `{W : World}.








(** *** The access test *)


End RequestEdges.

(** ** Generated metadata *)

Section GeneratedMetadata.
Context `{L : PyLib} `{W : World}.

(** The keys of a catalog entry. *)
Definition entry_keys : list string :=
  ["name"; "author"; "description"; "tags"; "ipfs_cid"; "size_mb";
   "created_at"; "path"].

Lemma metadata_for_keys name description tags cid model_path login :
  exists d,
    metadata_for name description tags cid model_path login = VDict d
    /\ map fst d = ["name"; "description"; "author"; "tags"; "ipfs_cid";
                    "size_mb"; "created_at"]
    /\ dict_lookup "name" d = Some (VStr name)
    /\ dict_lookup "description" d = Some (py_or description (VStr ""))
    /\ dict_lookup "author" d
       = Some (if truthy login then login else VStr "anonymous")
    /\ dict_lookup "tags" d = Some tags
    /\ dict_lookup "ipfs_cid" d = Some cid
    /\ dict_lookup "created_at" d = Some (VStr utc_now_isoformat)
    /\ dict_lookup "size_mb" d
       = Some (if truthy model_path
               then match directory_size_mb model_path with
                    | Val size_mb => size_mb
                    | Exn _ => VInt 0
                    end
               else VInt 0).
Proof.
  unfold metadata_for, metadata_literal. cbv zeta.
  destruct (truthy model_path); [|by eexists].
  destruct (directory_size_mb model_path); by eexists.
Qed.


(** X16: the metadata [generate_model_metadata] builds is always enough
    for a catalog entry.  [update_model_map] finds every key it reads: the
    entry is built, it copies the seven values, and it adds the path
    [models/<username>/<model name>]. *)
Theorem generated_metadata_makes_entry (name : string)
  (description tags cid model_path : value) (h : list event)
  (metadata github_username : value) (model_name : string) (o : list event) :
  generate_model_metadata name description tags cid model_path h
  = (Val metadata, o) ->
  exists e,
    model_entry_of metadata github_username model_name = Val (VDict e)
    /\ map fst e = entry_keys
    /\ dict_lookup "path" e
       = Some (VStr (model_dir_of github_username model_name))
    /\ Forall (fun k => py_getitem (VDict e) k = py_getitem metadata k)
         metadata_keys.
Proof.
  rewrite generate_model_metadata_run.
  destruct (get_github_username h) as [[login|e] o1]; [|done].
  intros [= <- _].
  destruct (metadata_for_keys name description tags cid model_path login)
    as (d & -> & _ & Hname & Hdescription & Hauthor & Htags & Hcid & Hcreated
        & Hsize).
  unfold model_entry_of. cbn [py_getitem].
  rewrite Hname, Hauthor, Hdescription, Htags, Hcid, Hsize, Hcreated.
  cbn [exc_bind]. eexists. split; [done|]. split; [done|]. split; [done|].
  repeat constructor; cbn [py_getitem dict_lookup String.eqb Ascii.eqb
                             Bool.eqb];
    by rewrite ?Hname, ?Hauthor, ?Hdescription, ?Htags, ?Hcid, ?Hsize,
         ?Hcreated.
Qed.

Lemma append_assoc (a b c : string) : (a +:+ b) +:+ c = a +:+ b +:+ c.
Proof.
  induction a as [|x a IH]; [done|].
  change (String x ((a +:+ b) +:+ c) = String x (a +:+ b +:+ c)).
  by rewrite IH.
Qed.

Lemma text_of_lines_cons (l : string) (ls : list string) :
  text_of_lines (l :: ls) = (l +:+ newline) +:+ text_of_lines ls.
Proof.
  unfold text_of_lines. cbn [fold_right]. by rewrite append_assoc.
Qed.

(** X17: for the metadata [generate_model_metadata] builds from a list of
    tags (the case of [create_model_pr], which splits the tag text), the
    README is always generated: [generate_readme] does not raise, and the
    text opens with the model name as its title. *)
Theorem generated_metadata_makes_readme (name : string)
  (description cid model_path : value) (tags : list value) (h : list event)
  (metadata : value) (o : list event) :
  generate_model_metadata name description (VList tags) cid model_path h
  = (Val metadata, o) ->
  exists readme_content,
    generate_readme metadata model_path = Val readme_content
    /\ String.prefix ("# " +:+ name +:+ newline) readme_content = true.
Proof.
  rewrite generate_model_metadata_run.
  destruct (get_github_username h) as [[login|e] o1]; [|done].
  intros [= <- _].
  destruct (metadata_for_keys name description (VList tags) cid model_path login)
    as (d & -> & _ & Hname & Hdescription & Hauthor & Htags & Hcid & _).
  unfold generate_readme. cbn [py_get].
  rewrite Hname, Hdescription, Htags, Hcid, Hauthor.
  cbn [exc_bind py_iter].
  destruct (truthy (VList tags)); cbn [exc_bind]; eexists;
    (split; [done|]);
    rewrite text_of_lines_cons; cbn [format_value];
    rewrite <- append_assoc; apply prefix_app.
Qed.
End GeneratedMetadata.

(** ** What [create_model_pr] returns *)


Section Partially.
Context {A B : Type} (Q : B -> Prop).




End Partially.



Section Publication.
Context `{L : PyLib} `{W : World}.

(** [pull_request_made h o v]: the events [o], made from history [h], end
    with a pull request on the upstream repository that was answered 201 with
    an object whose ["html_url"] is [v]. *)
Definition pull_request_made (h o : list event) (v : value) : Prop :=
  exists before title body head r pr_data,
    o = before ++ [pull_post title body head]
    /\ respond (h ++ before) (pull_post title body head) = Replied r
    /\ status_code r = 201
    /\ json_body r = Some (VDict pr_data)
    /\ dict_lookup "html_url" pr_data = Some v.

(** [publishes m]: a truthy result of [m] is the URL of a pull request it
    made last. *)
Definition publishes (m : M value) : Prop :=
  forall h v o, m h = (Val v, o) -> truthy v = true -> pull_request_made h o v.

Lemma pull_request_made_after h o1 o2 v :
  pull_request_made (h ++ o1) o2 v -> pull_request_made h (o1 ++ o2) v.
Proof.
  intros (before & title & body & head & r & pr_data & -> & Hr & Hrest).
  exists (o1 ++ before), title, body, head, r, pr_data.
  split; [by rewrite app_assoc|]. split; [by rewrite app_assoc|]. done.
Qed.

Lemma publishes_none : publishes (ret VNone).
Proof. by intros h v o [= <- _]. Qed.

Lemma publishes_bind {A} (m : M A) (f : A -> M value) :
  (forall a, publishes (f a)) -> publishes (bind m f).
Proof.
  intros Hf h v o Hrun Hv.
  apply bind_inv_val in Hrun as (a & o1 & o2 & _ & Hrun & ->).
  apply pull_request_made_after. by eapply Hf.
Qed.

Lemma publishes_if (c : bool) (m1 m2 : M value) :
  publishes m1 -> publishes m2 -> publishes (if c then m1 else m2).
Proof. by destruct c. Qed.

Lemma publishes_try_except (m : M value) :
  publishes m -> publishes (try_except m (fun _ => ret VNone)).
Proof.
  intros Hm h v o Hrun Hv.
  apply try_except_inv_val in Hrun as [Hrun | [-> _]]; [|done].
  by eapply Hm.
Qed.

Lemma publishes_post_pull title body head : publishes (post_pull title body head).
Proof.
  intros h v o. rewrite post_pull_run. intros [= <- <-]. unfold pull_answer.
  destruct (respond h _) as [e|r] eqn:Hr; [done|].
  destruct (status_code r =? 201) eqn:Hstatus; [|done].
  unfold response_json.
  destruct (json_body r) as [[| | | | |pr_data]|] eqn:Hbody; try done.
  cbn [exc_bind py_get]. intros Hv.
  exists [], title, body, head, r, pr_data. rewrite app_nil_r.
  split; [done|]. split; [done|]. split; [by apply Z.eqb_eq|].
  split; [done|]. by destruct (dict_lookup "html_url" pr_data).
Qed.

(** [pr_url = m; if pr_url: return pr_url else: return None] *)
Lemma publishes_checked (m : M value) :
  publishes m ->
  publishes (pr_url <- m ;; if truthy pr_url then ret pr_url else ret VNone).
Proof.
  intros Hm h v o Hrun Hv.
  apply bind_inv_val in Hrun as (pr_url & o1 & o2 & Hpr & Hrun & ->).
  destruct (truthy pr_url) eqn:Htruthy.
  - apply ret_inv in Hrun as [<- ->]. rewrite app_nil_r. by eapply Hm.
  - apply ret_inv in Hrun as [<- _]. done.
Qed.

Lemma direct_push_flow_publishes model_name description ipfs_cid
  github_username branch_name metadata model_tree readme_content :
  publishes
    (direct_push_flow model_name description ipfs_cid github_username
       branch_name metadata model_tree readme_content).
Proof.
  unfold direct_push_flow. apply publishes_try_except.
  apply publishes_bind. intros initialized.
  apply publishes_bind. intros init_ok.
  apply publishes_if; [apply publishes_none|]. cbv zeta.
  apply publishes_bind. intros created.
  apply publishes_if; [apply publishes_none|].
  apply publishes_bind. intros files_ok.
  apply publishes_if; [apply publishes_none|].
  apply publishes_bind. intros map_ok.
  apply publishes_if; [apply publishes_none|].
  apply publishes_checked, publishes_post_pull.
Qed.

Lemma fork_flow_publishes model_name description ipfs_cid github_username
  branch_name metadata readme_content :
  publishes
    (fork_flow model_name description ipfs_cid github_username branch_name
       metadata readme_content).
Proof.
  unfold fork_flow.
  apply publishes_bind. intros fork.
  apply publishes_if; [apply publishes_none|].
  apply publishes_bind. intros created.
  apply publishes_if; [apply publishes_none|]. cbv zeta.
  apply publishes_bind. intros files_ok.
  apply publishes_if; [apply publishes_none|].
  apply publishes_checked, publishes_post_pull.
Qed.

Lemma create_model_pr_publishes model_name description tags ipfs_cid model_path :
  publishes (create_model_pr model_name description tags ipfs_cid model_path).
Proof.
  unfold create_model_pr. cbv zeta.
  apply publishes_if; [apply publishes_none|].
  apply publishes_bind. intros github_username.
  apply publishes_if; [apply publishes_none|].
  apply publishes_bind. intros has_push.
  apply publishes_try_except.
  apply publishes_bind. intros metadata.
  apply publishes_if; [apply publishes_none|].
  apply publishes_bind. intros model_tree.
  apply publishes_bind. intros readme_content.
  apply publishes_if;
    [apply direct_push_flow_publishes | apply fork_flow_publishes].
Qed.

Lemma wrapper_publishes name metadata readme :
  publishes (Wrapper.create_pull_request name metadata readme).
Proof.
  unfold Wrapper.create_pull_request. apply publishes_try_except. cbv zeta.
  apply publishes_if; [apply publishes_none|].
  apply publishes_bind. intros github_username.
  apply publishes_if; [apply publishes_none|].
  apply publishes_bind. intros access.
  apply publishes_if; [apply publishes_none|].
  apply publishes_bind. intros has_push.
  apply publishes_bind. intros model_tree.
  apply publishes_if.
  - apply publishes_bind. intros initialized.
    apply publishes_bind. intros init_ok.
    apply publishes_if; [apply publishes_none|].
    apply publishes_bind. intros created.
    apply publishes_if; [apply publishes_none|].
    apply publishes_bind. intros files_ok.
    apply publishes_if; [apply publishes_none|].
    apply publishes_bind. intros map_ok.
    apply publishes_if; [apply publishes_none|].
    apply publishes_bind. intros description.
    apply publishes_bind. intros ipfs_cid.
    apply publishes_post_pull.
  - apply publishes_bind. intros fork.
    apply publishes_if; [apply publishes_none|].
    apply publishes_bind. intros created.
    apply publishes_if; [apply publishes_none|].
    apply publishes_bind. intros files_ok.
    apply publishes_if; [apply publishes_none|].
    apply publishes_bind. intros description.
    apply publishes_bind. intros ipfs_cid.
    apply publishes_post_pull.
Qed.



(** X19: [create_model_pr] needs an identity before it does anything.
    Without a token it returns None and makes no request; with a token but
    no login from the user lookup it returns None after that one lookup:
    the repository is not queried and nothing is written. *)
Theorem create_model_pr_needs_identity (model_name : string)
  (description tags ipfs_cid model_path : value) (h : list event) :
  (truthy (os_environ_get "GITHUB_API_TOKEN") = false ->
   create_model_pr model_name description tags ipfs_cid model_path h
   = (Val VNone, []))
  /\ (forall login o1,
        truthy (os_environ_get "GITHUB_API_TOKEN") = true ->
        get_github_username h = (Val login, o1) ->
        truthy login = false ->
        o1 = [user_get]
        /\ create_model_pr model_name description tags ipfs_cid model_path h
           = (Val VNone, [user_get])).
Proof.
  unfold create_model_pr. cbv zeta. split.
  - by intros ->.
  - intros login o1 Htoken Hlogin Hfalsy. rewrite Htoken. cbn [negb].
    rewrite (bind_val _ _ _ _ _ Hlogin), Hfalsy. cbn [negb]. unfold ret.
    rewrite get_github_username_run, Htoken in Hlogin.
    injection Hlogin as _ <-. done.
Qed.

(** X20: a URL that [create_model_pr] or the wrapper
    [utils.create_pull_request] returns is the ["html_url"] of a pull request
    the run made on the upstream repository and that was answered 201, and
    that request is the last event of the run. *)
Theorem returned_url_is_pull_request (h : list event) (v : value)
  (o : list event) :
  truthy v = true ->
  (forall model_name description tags ipfs_cid model_path,
     create_model_pr model_name description tags ipfs_cid model_path h
     = (Val v, o) ->
     pull_request_made h o v)
  /\ (forall name metadata readme,
        Wrapper.create_pull_request name metadata readme h = (Val v, o) ->
        pull_request_made h o v).
Proof.
  intros Hv. split.
  - intros model_name description tags ipfs_cid model_path Hrun.
    by eapply create_model_pr_publishes.
  - intros name metadata readme Hrun. by eapply wrapper_publishes.
Qed.

(** ** The direct flow on a repository it cannot see *)


(** ** Runs without push access *)

(** [writes_upstream ev]: [ev] creates or changes a file or a ref of the
    upstream repository. *)
Definition writes_upstream (ev : event) : bool :=
  match ev with
  | Put (ep_contents owner _ _ _) _ _ => String.eqb owner REPO_OWNER
  | Put _ _ _ => true
  | Post (ep_refs owner _) _ _ => String.eqb owner REPO_OWNER
  | _ => false
  end.

Definition spares_upstream (ev : event) : Prop := writes_upstream ev = false.

Lemma get_github_username_emits (P : event -> Prop) :
  P user_get -> emits P get_github_username.
Proof.
  intros HP h r o. rewrite get_github_username_run.
  destruct (truthy _); intros [= _ <-]; by repeat constructor.
Qed.

Lemma get_or_create_fork_emits (P : event -> Prop) :
  P user_get -> (forall login, P (fork_get login)) -> P forks_post ->
  emits P get_or_create_fork.
Proof.
  intros Huser Hget Hpost h r o. rewrite get_or_create_fork_run.
  destruct (get_github_username h) as [login o1] eqn:Hu.
  apply (get_github_username_emits P Huser) in Hu. intros Hrun.
  repeat case_match; injection Hrun as _ <-;
    rewrite ?Forall_app; repeat split; try done; by repeat constructor.
Qed.

Lemma create_branch_in_fork_emits (P : event -> Prop) branch_name
  github_username :
  P (base_lookup (format_value github_username) "main") ->
  P (Sleep 5) ->
  (forall base_sha,
     P (ref_post (format_value github_username) branch_name base_sha)) ->
  emits P (create_branch_in_fork branch_name github_username).
Proof.
  intros Hlookup Hsleep Hpost h r o. rewrite create_branch_in_fork_run.
  cbv zeta. unfold create_ref_from. intros Hrun.
  repeat case_match; injection Hrun as _ <-;
    rewrite ?Forall_app; repeat split; by repeat constructor.
Qed.

Lemma write_file_emits (P : event -> Prop) owner path content commit_message
  branch :
  P (file_check owner path branch) ->
  (forall data, P (file_put owner path data)) ->
  emits P (write_file owner path content commit_message branch).
Proof.
  intros Hcheck Hput h r o. rewrite write_file_run. cbv zeta. intros Hrun.
  repeat case_match; injection Hrun as _ <-; by repeat constructor.
Qed.

Lemma post_pull_emits (P : event -> Prop) title body head :
  P (pull_post title body head) -> emits P (post_pull title body head).
Proof.
  intros HP h r o. rewrite post_pull_run. intros [= _ <-]. by repeat constructor.
Qed.

Lemma fork_flow_spares_upstream model_name description ipfs_cid github_username
  branch_name metadata readme_content :
  format_value github_username <> REPO_OWNER ->
  emits spares_upstream
    (fork_flow model_name description ipfs_cid github_username branch_name
       metadata readme_content).
Proof.
  intros Howner. apply String.eqb_neq in Howner. unfold fork_flow.
  apply emits_bind; [by apply get_or_create_fork_emits|]. intros fork.
  apply emits_if; [apply emits_ret|].
  apply emits_bind; [by apply create_branch_in_fork_emits|]. intros created.
  apply emits_if; [apply emits_ret|]. cbv zeta.
  apply emits_bind.
  { apply create_each_emits.
    repeat constructor; by apply write_file_emits. }
  intros files_ok. apply emits_if; [apply emits_ret|].
  apply emits_bind; [by apply post_pull_emits|]. intros pr_url.
  apply emits_if; apply emits_ret.
Qed.

(** X22: a run of [create_model_pr] without push access leaves the
    upstream repository as it is.  For a user other than the upstream owner,
    no request of the run, finished or not, creates or changes a file or a
    ref there: every file write and every ref request goes to the user's
    fork. *)
Theorem no_push_run_spares_upstream
  (model_name : string) (description tags ipfs_cid model_path : value)
  (h : list event) (u hp : value) (o1 o2 : list event)
  (r : exc value) (o : list event) :
  truthy (os_environ_get "GITHUB_API_TOKEN") = true ->
  get_github_username h = (Val u, o1) ->
  truthy u = true ->
  format_value u <> REPO_OWNER ->
  has_push_access (h ++ o1) = (Val hp, o2) ->
  truthy hp = false ->
  create_model_pr model_name description tags ipfs_cid model_path h = (r, o) ->
  Forall spares_upstream o.
Proof.
  intros Htoken Hu Htruthy Howner Hpush Hno Hrun.
  destruct (get_github_username_total (h ++ o1 ++ o2)) as (login & o3 & Hlogin).
  rewrite (create_model_pr_run _ _ _ _ _ _ _ _ _ _ _ _ Htoken Hu Htruthy Hpush
             Hlogin) in Hrun.
  cbv zeta in Hrun. rewrite Hno in Hrun.
  assert (Hquiet : Forall spares_upstream (o1 ++ o2 ++ o3)).
  { rewrite !Forall_app. split; [|split].
    - by eapply (get_github_username_emits spares_upstream).
    - rewrite has_push_access_run in Hpush. injection Hpush as _ <-.
      by repeat constructor.
    - by eapply (get_github_username_emits spares_upstream). }
  destruct (generate_model_tree [model_path]) as [model_tree|e];
    [|by injection Hrun as _ <-].
  destruct (generate_readme _ model_path) as [readme_content|e];
    [|by injection Hrun as _ <-].
  destruct (fork_flow _ _ _ _ _ _ _ _) as [rf o4] eqn:Hflow.
  injection Hrun as _ <-.
  apply (fork_flow_spares_upstream _ _ _ _ _ _ _ Howner) in Hflow.
  rewrite !Forall_app in Hquiet. rewrite !Forall_app. tauto.
Qed.
End Publication.

(** ** The commands and their exit status *)


Section CommandLemmas.
Context {A B : Type}.





End CommandLemmas.

Section CommandStatus.
Context `{L : PyLib} `{W : World}.


Lemma emits_file_system (P : event -> Prop) (ev : event) :
  P ev -> emits P (file_system ev).
Proof.
  intros HP h r o. unfold file_system.
  destruct (fs_error h ev); intros [= _ <-]; by repeat constructor.
Qed.

















End CommandStatus.

(** ** The shell layer *)

(** [acts P m]: every action of [m] satisfies [P], however it ends. *)
Definition acts {A} (P : action -> Prop) (m : Sh A) : Prop :=
  forall h r o, m h = (r, o) -> Forall P o.

Section ShellLemmas.
Context {A B : Type}.

Lemma sh_bind_inv (m : Sh A) (f : A -> Sh B) h r o :
  sh_bind m f h = (r, o) ->
  (exists a o1 o2,
     m h = (Returns a, o1) /\ f a (h ++ o1) = (r, o2) /\ o = o1 ++ o2)
  \/ (exists code, m h = (Exits code, o) /\ r = Exits code)
  \/ (exists e, m h = (Raises e, o) /\ r = Raises e).
Proof.
  unfold sh_bind. destruct (m h) as [[a|code|e] o1].
  - destruct (f a (h ++ o1)) as [r2 o2] eqn:Hrun. intros [= <- <-].
    left. by exists a, o1, o2.
  - intros [= <- <-]. right. left. by exists code.
  - intros [= <- <-]. right. right. by exists e.
Qed.

Lemma acts_ret (P : action -> Prop) (a : A) : acts P (sh_ret a).
Proof. intros h r o [= _ <-]. constructor. Qed.

Lemma acts_exit (P : action -> Prop) (code : Z) : acts P (@sh_exit A code).
Proof. intros h r o [= _ <-]. constructor. Qed.

Lemma acts_bind (P : action -> Prop) (m : Sh A) (f : A -> Sh B) :
  acts P m -> (forall a, acts P (f a)) -> acts P (sh_bind m f).
Proof.
  intros Hm Hf h r o Hrun.
  apply sh_bind_inv in Hrun
    as [(a & o1 & o2 & Ha & Hrun & ->) | [(code & Ha & _) | (e & Ha & _)]].
  - apply Forall_app. split; [by eapply Hm | by eapply Hf].
  - by eapply Hm.
  - by eapply Hm.
Qed.

Lemma acts_except_missing (P : action -> Prop) (m handler : Sh A) :
  acts P m -> acts P handler -> acts P (except_missing m handler).
Proof.
  intros Hm Hh h r o. unfold except_missing.
  destruct (m h) as [[a|code|[|e]] o1] eqn:Em;
    try (intros [= _ <-]; by eapply Hm).
  destruct (handler (h ++ o1)) as [r2 o2] eqn:Eh. intros [= _ <-].
  apply Forall_app. split; [by eapply Hm | by eapply Hh].
Qed.

Lemma acts_except_any (P : action -> Prop) (m : Sh A)
  (handler : spawn_exn -> Sh A) :
  acts P m -> (forall e, acts P (handler e)) -> acts P (except_any m handler).
Proof.
  intros Hm Hh h r o. unfold except_any.
  destruct (m h) as [[a|code|e] o1] eqn:Em;
    try (intros [= _ <-]; by eapply Hm).
  destruct (handler e (h ++ o1)) as [r2 o2] eqn:Eh. intros [= _ <-].
  apply Forall_app. split; [by eapply Hm | by eapply Hh].
Qed.

Lemma acts_weaken (P Q : action -> Prop) (m : Sh A) :
  (forall a, P a -> Q a) -> acts P m -> acts Q m.
Proof.
  intros HPQ Hm h r o Hrun. eapply Forall_impl; [by eapply Hm | exact HPQ].
Qed.
End ShellLemmas.

(** The programs started, by kind. *)
Definition version_argv : list string := ["w3"; "--version"].
Definition npm_argv : list string := ["npm"; "i"; "--global"; "@web3-storage/w3cli"].
Definition did_argv : list string := ["w3"; "did"].
Definition ls_argv : list string := ["w3"; "space"; "ls"].
Definition login_argv (email : string) : list string :=
  ["w3"; "login"; "--email"; email].
Definition create_argv : list string := ["w3"; "space"; "create"; "octoface-space"].
Definition use_argv : list string := ["w3"; "space"; "use"; "octoface-space"].

Definition is_tell (a : action) : Prop :=
  match a with
  | Tell _ => True
  | Spawn _ => False
  end.

(** [w3 login ...] *)
Definition is_login (a : action) : bool :=
  match a with
  | Spawn ("w3" :: "login" :: _) => true
  | _ => false
  end.

(** [w3 space create ...] and [w3 space use ...] *)
Definition changes_space (a : action) : bool :=
  match a with
  | Spawn ("w3" :: "space" :: "create" :: _) => true
  | Spawn ("w3" :: "space" :: "use" :: _) => true
  | _ => false
  end.

Ltac sh_norm :=
  cbn beta iota zeta; cbn [fst snd];
  repeat (rewrite app_nil_r || rewrite <- app_assoc);
  cbn [app].

Ltac sh_unfold :=
  unfold sh_bind, except_any, except_missing, spawn, tell, sh_ret, sh_exit.

Ltac sh_case :=
  sh_norm;
  match goal with
  | |- context [subprocess_run ?h ?argv] =>
      let E := fresh "Hspawn" in
      destruct (subprocess_run h argv) as [[|?]|?] eqn:E
  | |- context [if ?c then _ else _] =>
      let E := fresh "Hif" in destruct c eqn:E
  | |- context [match ?e with Some _ => _ | None => _ end] =>
      destruct e as [[|? ?]|]
  end;
  sh_norm.

(** Split on every reply and every test; what is left are the runs the
    statement is about. *)
Ltac sh_crush := repeat (try solve [intros [=]]; sh_case); try solve [intros [=]].

(** The lines printed do not matter to what follows: name them. *)
Ltac hide_lines :=
  repeat match goal with
         | |- context [tell ?s] =>
             tryif is_var s then fail
             else (let line := fresh "line" in set (line := s); clearbody line)
         end.

Lemma acts_tell (P : action -> Prop) (line : string) :
  P (Tell line) -> acts P (tell line).
Proof. intros HP h r o [= _ <-]. by repeat constructor. Qed.

Lemma acts_spawn `{S : Shell} (P : action -> Prop) (argv : list string) :
  P (Spawn argv) -> acts P (spawn argv).
Proof.
  intros HP h r o. unfold spawn.
  destruct (subprocess_run h argv); intros [= _ <-]; by repeat constructor.
Qed.

Ltac acts_step :=
  first [ apply acts_ret
        | apply acts_exit
        | apply acts_tell; by repeat split
        | apply acts_spawn; by repeat split
        | apply acts_bind; [|intros ?]
        | apply acts_except_missing
        | apply acts_except_any; [|intros ?]
        | match goal with
          | |- acts _ (if ?c then _ else _) => destruct c
          | |- acts _ (match ?e with Some _ => _ | None => _ end) =>
              destruct e as [[|? ?]|]
          end ].

Section ShellProperties.
Context `{W : World} `{S : Shell}.

(** *** [check_credentials] *)

(** X26: [check_credentials] returns True exactly when a token is set,
    [w3 --version] ends with return code 0, and [w3 did] ends with return
    code 0 and an output that does not hold the words "No space". *)
Theorem check_credentials_true_iff (h : list action) :
  fst (check_credentials h) = Returns true
  <-> truthy (os_environ_get "GITHUB_API_TOKEN") = true
      /\ exists version did,
           subprocess_run h version_argv = Completed version
           /\ returncode version = 0
           /\ subprocess_run (h ++ [Spawn version_argv]) did_argv
              = Completed did
           /\ returncode did = 0
           /\ str_contains "No space" (stdout did) = false.
Proof.
  unfold check_credentials, login_steps, version_argv, did_argv. cbv zeta.
  split.
  - hide_lines.
    destruct (truthy (os_environ_get "GITHUB_API_TOKEN")); cbn [negb];
      sh_unfold; sh_crush; try discriminate.
    intros _. split; [done|]. eexists _, _.
    split; [done|]. apply negb_false_iff, Z.eqb_eq in Hif.
    apply orb_false_iff in Hif0 as [Hrc Hspace].
    apply negb_false_iff, Z.eqb_eq in Hrc. done.
  - intros (-> & version & did & Hversion & Hrc & Hdid & Hrc_did & Hspace).
    cbn [negb]. sh_unfold. sh_norm. rewrite Hversion, Hrc.
    cbn [Z.eqb negb]. sh_norm. rewrite Hdid, Hrc_did, Hspace. done.
Qed.

(** X27: [check_credentials] raises in one case only: [w3 --version]
    cannot be started for another reason than a missing program (the first
    [try] catches [FileNotFoundError] alone).  In every other case it returns,
    and it has made all its checks, also after an earlier one failed:
    [w3 --version] and [w3 did] are both started, the second even when the
    first is missing. *)
Theorem check_credentials_raises_iff (h : list action) :
  exists told,
    Forall is_tell told
    /\ (truthy (os_environ_get "GITHUB_API_TOKEN") = true -> told = [])
    /\ match subprocess_run (h ++ told) version_argv with
       | Failed (OtherError e) =>
           check_credentials h
           = (Raises (OtherError e), told ++ [Spawn version_argv])
       | _ =>
           exists valid o,
             check_credentials h = (Returns valid, o)
             /\ In (Spawn version_argv) o
             /\ In (Spawn did_argv) o
       end.
Proof.
  unfold check_credentials, login_steps, version_argv, did_argv. cbv zeta.
  destruct (truthy (os_environ_get "GITHUB_API_TOKEN")); cbn [negb].
  - exists []. split; [constructor|]. split; [done|]. rewrite app_nil_r.
    sh_unfold. sh_norm.
    destruct (subprocess_run h ["w3"; "--version"]) as [[|e]|p]; sh_norm;
      [| reflexivity |];
      sh_crush; eexists _, _; (split; [done|]); cbn [In]; auto 10.
  - exists [Tell "[red]GitHub API token not found. Please set GITHUB_API_TOKEN environment variable.[/red]";
            Tell ("[yellow]Example: export GITHUB_API_TOKEN=" +:+ dquote
                  +:+ "your-github-api-token" +:+ dquote +:+ "[/yellow]")].
    split; [by repeat constructor|]. split; [done|].
    sh_unfold. sh_norm.
    destruct (subprocess_run (h ++ _) ["w3"; "--version"]) as [[|e]|p]; sh_norm;
      [| reflexivity |];
      sh_crush; eexists _, _; (split; [done|]); cbn [In]; auto 10.
Qed.

(** *** [setup_w3] *)

(** Whether [w3 did] shows a login, as [setup_w3] reads it. *)
Definition logged_in (p : completed_process) : bool :=
  (returncode p =? 0) && str_contains "did:key:" (stdout p).

(** [ended_with h o argv]: the last program started among [o] is [argv],
    and it ended with return code 0. *)
Definition ended_with (h o : list action) (argv : list string) : Prop :=
  exists before p after,
    o = before ++ Spawn argv :: after
    /\ subprocess_run (h ++ before) argv = Completed p
    /\ returncode p = 0
    /\ Forall is_tell after.

Lemma ended_with_after h o1 o2 argv :
  ended_with (h ++ o1) o2 argv -> ended_with h (o1 ++ o2) argv.
Proof.
  intros (before & p & after & -> & Hp & Hrest).
  exists (o1 ++ before), p, after.
  split; [by rewrite app_assoc|]. split; [by rewrite app_assoc|]. done.
Qed.

Lemma ensure_login_true email h o :
  ensure_login email h = (Returns true, o) ->
  exists did note1 note2,
    subprocess_run h did_argv = Completed did
    /\ logged_in did = true
    /\ o = [Spawn did_argv; Tell note1; Spawn ls_argv; Tell note2].
Proof.
  unfold ensure_login, request_login, ask_for_email, logged_in, did_argv, ls_argv.
  hide_lines. sh_unfold. sh_crush. intros [= <-]. by eexists _, _, _.
Qed.

(** The ways [ensure_login] ends: it goes on to the space, it returns
    after [w3 space ls] found one, it ends the process with 0 after a login
    that was accepted, or it ends the process with 1.  It never raises. *)
Lemma ensure_login_outcome email h r o :
  ensure_login email h = (r, o) ->
  r = Returns true
  \/ (r = Returns false /\ ended_with h o ls_argv)
  \/ (r = Exits 0
      /\ exists e, email = Some e /\ e <> "" /\ ended_with h o (login_argv e))
  \/ r = Exits 1.
Proof.
  unfold ensure_login, request_login, ask_for_email, ended_with, login_argv,
    did_argv, ls_argv.
  hide_lines. sh_unfold. sh_crush; intros [= <- <-]; auto.
  all: try (right; left; split; [done|];
            apply andb_true_iff in Hif0 as [Hrc _]; apply Z.eqb_eq in Hrc;
            eexists [_; _], _, [_]; cbn [app];
            split; [done|]; split; [done|]; split; [done|];
            by repeat constructor).
  all: right; right; left; split; [done|];
    eexists; split; [done|]; split; [done|];
    match goal with
    | H : negb (returncode _ =? 0) = false |- _ =>
        apply negb_false_iff, Z.eqb_eq in H
    end.
  all: first [ (eexists [_; _; _; _], _, [_; _]; cbn [app];
                split; [done|]; split; [done|]; split; [done|];
                by repeat constructor)
             | (eexists [_; _; _; _; _], _, [_; _]; cbn [app];
                split; [done|]; split; [done|]; split; [done|];
                by repeat constructor)
             | (eexists [_; _; _; _; _; _], _, [_; _]; cbn [app];
                split; [done|]; split; [done|]; split; [done|];
                by repeat constructor)
             | (eexists [_; _; _; _; _; _; _], _, [_; _]; cbn [app];
                split; [done|]; split; [done|]; split; [done|];
                by repeat constructor)
             | (eexists [_; _; _; _; _; _; _; _], _, [_; _]; cbn [app];
                split; [done|]; split; [done|]; split; [done|];
                by repeat constructor) ].
Qed.

(** The ways [create_space] ends: it returns after [w3 space use] ended
    well, or it ends the process with 1. *)
Lemma create_space_outcome h r o :
  create_space h = (r, o) ->
  (r = Returns tt /\ ended_with h o use_argv) \/ r = Exits 1.
Proof.
  unfold create_space, ended_with, use_argv. hide_lines. sh_unfold.
  sh_crush; intros [= <- <-]; auto.
  left. split; [done|]. apply negb_false_iff, Z.eqb_eq in Hif0.
  eexists [_; _], _, [_; _]. cbn [app].
  split; [done|]. split; [done|]. split; [done|]. by repeat constructor.
Qed.

(** The ways [ensure_w3cli] ends: it returns, it ends the process with 1,
    or it raises what a program that could not be started raised: npm, or
    [w3 --version] for another reason than a missing program. *)
Lemma ensure_w3cli_outcome h r o :
  ensure_w3cli h = (r, o) ->
  r = Returns tt
  \/ r = Exits 1
  \/ exists e before argv,
       r = Raises e
       /\ o = before ++ [Spawn argv]
       /\ subprocess_run (h ++ before) argv = Failed e
       /\ (argv = npm_argv
           \/ (argv = version_argv /\ before = [] /\ e <> FileNotFoundError)).
Proof.
  unfold ensure_w3cli, install_w3cli, npm_argv, version_argv. hide_lines.
  sh_unfold. sh_crush; intros [= <- <-]; auto.
  all: right; right; eexists _;
    first [ (exists [], ["w3"; "--version"]; cbn [app]; rewrite ?app_nil_r;
             split; [done|]; split; [done|]; split; [done|]; right; done)
          | (eexists [_; _; _], _; cbn [app];
             split; [done|]; split; [done|]; split; [done|]; by left)
          | (eexists [_; _; _; _; _; _], _; cbn [app];
             split; [done|]; split; [done|]; split; [done|]; by left) ].
Qed.

Lemma ensure_w3cli_acts :
  acts (fun a => is_login a = false /\ changes_space a = false /\ a <> Spawn did_argv)
    ensure_w3cli.
Proof. unfold ensure_w3cli, install_w3cli. repeat acts_step. Qed.

Lemma ensure_login_acts email :
  acts (fun a => changes_space a = false) (ensure_login email).
Proof.
  unfold ensure_login, request_login, ask_for_email. repeat acts_step.
Qed.

Lemma create_space_acts : acts (fun a => is_login a = false) create_space.
Proof. unfold create_space. repeat acts_step. Qed.

(** X28: the exit status of [setup-w3] is 0 or 1, and it is 0 only when
    the last program the command started ended with return code 0, that
    program being [w3 space ls] (a space exists), [w3 space use] (the space
    was created and selected) or [w3 login] with the email address given (a
    verification link was sent). *)
Theorem setup_w3_exit_status (email : option string) (h : list action) :
  (process_status (fst (setup_w3 email h)) = 0
   \/ process_status (fst (setup_w3 email h)) = 1)
  /\ (process_status (fst (setup_w3 email h)) = 0 ->
      ended_with h (snd (setup_w3 email h)) ls_argv
      \/ ended_with h (snd (setup_w3 email h)) use_argv
      \/ exists e,
           email = Some e /\ e <> ""
           /\ ended_with h (snd (setup_w3 email h)) (login_argv e)).
Proof.
  destruct (setup_w3 email h) as [r o] eqn:Hrun. cbn [fst snd].
  unfold setup_w3 in Hrun.
  apply sh_bind_inv in Hrun
    as [([] & o1 & o23 & H1 & Hrun & ->) | [(c & H1 & ->) | (e & H1 & ->)]].
  2:{ apply ensure_w3cli_outcome in H1 as [[=] | [[= ->] | (? & ? & ? & [=] & _)]].
      split; [by right | done]. }
  2:{ split; [by right | done]. }
  apply sh_bind_inv in Hrun
    as [(go_on & o2 & o3 & H2 & H3 & ->) | [(c & H2 & ->) | (e & H2 & ->)]].
  - destruct go_on.
    + apply create_space_outcome in H3 as [[-> Hused] | ->].
      * split; [by left|]. intros _. right. left.
        by do 2 apply ended_with_after.
      * split; [by right | done].
    + injection H3 as <- <-. split; [by left|]. intros _. left.
      rewrite app_nil_r.
      apply ensure_login_outcome in H2
        as [[=] | [[_ Hls] | [[[=] _] | [=]]]].
      by apply ended_with_after.
  - apply ensure_login_outcome in H2
      as [[=] | [[[=] _] | [[[= ->] (e & -> & Hne & Hlogin)] | [= ->]]]].
    + split; [by left|]. intros _. right. right. exists e.
      split; [done|]. split; [done|]. by apply ended_with_after.
    + split; [by right | done].
  - split; [by right | done].
Qed.

(** X29: [setup-w3] touches spaces only for a user who is logged in.  A
    run that starts [w3 space create] or [w3 space use] has before that
    started [w3 did], which ended with return code 0 and showed a key; and
    such a run never starts [w3 login]. *)
Theorem setup_w3_space_needs_login (email : option string)
  (h : list action) (r : ending unit) (o : list action) :
  setup_w3 email h = (r, o) ->
  Exists (fun a => changes_space a = true) o ->
  (exists before did after,
     o = before ++ Spawn did_argv :: after
     /\ subprocess_run (h ++ before) did_argv = Completed did
     /\ returncode did = 0
     /\ str_contains "did:key:" (stdout did) = true)
  /\ Forall (fun a => is_login a = false) o.
Proof.
  intros Hrun Hspace. unfold setup_w3 in Hrun.
  assert (Hquiet : forall o', Forall (fun a => changes_space a = false) o' ->
                              ~ Exists (fun a => changes_space a = true) o').
  { intros o' Hall Hex. apply Exists_exists in Hex as (a & Hin & Ha).
    rewrite Forall_forall in Hall. apply Hall in Hin. congruence. }
  apply sh_bind_inv in Hrun
    as [([] & o1 & o23 & H1 & Hrun & ->) | [(c & H1 & ->) | (e & H1 & ->)]].
  2,3: apply ensure_w3cli_acts in H1; destruct (Hquiet o); [|done];
    eapply Forall_impl; [exact H1 | by intros a (_ & Ha & _)].
  pose proof (ensure_w3cli_acts _ _ _ H1) as Hacts1.
  apply sh_bind_inv in Hrun
    as [(go_on & o2 & o3 & H2 & H3 & ->) | [(c & H2 & ->) | (e & H2 & ->)]].
  2,3: apply ensure_login_acts in H2; destruct (Hquiet (o1 ++ o23)); [|done];
    apply Forall_app; split; [|done];
    eapply Forall_impl; [exact Hacts1 | by intros a (_ & Ha & _)].
  destruct go_on.
  2:{ injection H3 as <- <-. apply ensure_login_acts in H2.
      destruct (Hquiet (o1 ++ o2 ++ [])); [|done].
      rewrite app_nil_r. apply Forall_app. split; [|done].
      eapply Forall_impl; [exact Hacts1 | by intros a (_ & Ha & _)]. }
  apply ensure_login_true in H2 as (did & note1 & note2 & Hdid & Hlogged & ->).
  apply create_space_acts in H3.
  apply andb_true_iff in Hlogged as [Hrc Hkey]. apply Z.eqb_eq in Hrc.
  split.
  - exists o1, did, ([Tell note1; Spawn ls_argv; Tell note2] ++ o3).
    by repeat split.
  - rewrite !Forall_app. split; [|split; [by repeat constructor | done]].
    eapply Forall_impl; [exact Hacts1 | by intros a (Ha & _)].
Qed.

End ShellProperties.

(** * The theorems at work on the sample environments *)

(** A submission whose path the sample catalog holds at index 1. *)
Definition merge_world : World := alice true (Some catalog_file).

Definition merge_branch : string := "add-model-my-model-1700000000".



Lemma has_push_access_fails_closed_witness :
  fst (has_push_access (L := sample_lib)
         (W := scripted [permissions_reply false true]) [])
  = Val (VBool true)
  /\ fst (has_push_access (L := sample_lib)
            (W := scripted [permissions_reply false false]) [])
     = Val (VBool false)
  /\ fst (has_push_access (L := sample_lib)
            (W := scripted [reply_with 404 None]) [])
     = Val (VBool false)
  /\ fst (has_push_access (L := sample_lib) (W := scripted []) [])
     = Val (VBool false).
Proof.
  split; [|split; [|split]].
  - destruct (has_push_access_fails_closed (L := sample_lib)
                (W := scripted [permissions_reply false true]) [])
      as (_ & Hadmin & _).
    by rewrite (Hadmin _ _ eq_refl eq_refl eq_refl eq_refl).
  - destruct (has_push_access_fails_closed (L := sample_lib)
                (W := scripted [permissions_reply false false]) [])
      as (_ & _ & Hnone & _).
    by rewrite (Hnone _ _ eq_refl eq_refl eq_refl eq_refl).
  - destruct (has_push_access_fails_closed (L := sample_lib)
                (W := scripted [reply_with 404 None]) [])
      as (_ & _ & _ & Hstatus & _).
    rewrite (Hstatus _ eq_refl); [done|]. discriminate.
  - destruct (has_push_access_fails_closed (L := sample_lib)
                (W := scripted []) [])
      as (_ & _ & _ & _ & Hraised).
    by rewrite (Hraised _ eq_refl).
Defined.



(** The fork scenario of the spec: no push access, no fork yet, the
    fork's branch ready on the second lookup. *)
Definition fork_run : exc value * list event :=
  create_model_pr (L := sample_lib) (W := alice false None)
    "My Model" (VStr "A small model") (VStr "nlp, small")
    (VStr "bafybeigdyrzt") (VStr "./my-model") [].


(** The direct-push scenario of the spec: push access, the repository
    initialised, every write accepted. *)
Definition direct_world : World := alice true None.

Definition direct_run : exc value * list event :=
  create_model_pr (L := sample_lib) (W := direct_world)
    "My Model" (VStr "A small model") (VStr "nlp, small")
    (VStr "bafybeigdyrzt") (VStr "./my-model") [].

Definition direct_metadata : value :=
  metadata_for (W := direct_world) "My Model" (VStr "A small model")
    (tags_list_for (VStr "nlp, small")) (VStr "bafybeigdyrzt")
    (VStr "./my-model") (VStr "alice").

Definition direct_readme : string :=
  match generate_readme (L := sample_lib) direct_metadata (VStr "./my-model")
  with
  | Val readme_content => readme_content
  | Exn _ => ""
  end.




Lemma download_failure_exits_zero_witness :
  exit_status
    (fst (download (L := sample_lib) (W := direct_world)
            "octofacehub/missing-model" "./" []))
  = 0.
Proof.
  destruct (download_failure_exits_zero (L := sample_lib) (W := direct_world)
              "octofacehub/missing-model" "./" VNone [])
    as (_ & Hstatus).
  - reflexivity.
  - reflexivity.
  - exact Hstatus.
Defined.

Lemma generate_files_never_completes_witness :
  exit_status
    (fst (generate_files (L := sample_lib) (W := direct_world)
            (VStr "./my-model") "My Model" (VStr "A small model")
            "nlp, small" (VStr "bafybeigdyrzt") "octofacehub_files" []))
  = 1.
Proof.
  destruct (generate_files_never_completes (L := sample_lib)
              (W := direct_world)
              (VStr "./my-model") "My Model" (VStr "A small model")
              "nlp, small" (VStr "bafybeigdyrzt") "octofacehub_files" [])
    as (_ & _ & Hstatus & _).
  exact Hstatus.
Defined.

(** The wrapper on the metadata [generate_model_metadata] builds. *)
Definition wrapper_run : exc value * list event :=
  Wrapper.create_pull_request (L := sample_lib) (W := direct_world)
    "My Model" sample_metadata direct_readme [].


(** ** The further properties at work *)

Lemma merge_models_idempotent_witness :
  merge_models [VDict unrelated_entry; VDict fresh_entry] (VDict fresh_entry)
    shared_path
  = Val [VDict unrelated_entry; VDict fresh_entry].
Proof.
  apply (merge_models_idempotent (models_of [unrelated_entry; earlier_entry])
           [VDict unrelated_entry; VDict fresh_entry] fresh_entry shared_path);
    reflexivity.
Defined.

Lemma merge_models_keeps_other_paths_witness :
  filter (fun model => other_path shared_path model = true)
    [VDict unrelated_entry; VDict fresh_entry]
  = [VDict unrelated_entry]
  /\ In (VDict fresh_entry) [VDict unrelated_entry; VDict fresh_entry].
Proof.
  destruct (merge_models_keeps_other_paths
              (models_of [unrelated_entry; earlier_entry])
              [VDict unrelated_entry; VDict fresh_entry] fresh_entry shared_path)
    as (Hkept & Hin & _).
  - reflexivity.
  - reflexivity.
  - split; [|exact Hin]. rewrite Hkept. reflexivity.
Defined.

(** A list with a number among the entries, after the match and before
    it. *)
Lemma merge_models_stops_at_first_match_witness :
  merge_models [VDict unrelated_entry; VDict earlier_entry; VInt 7]
    (VDict fresh_entry) shared_path
  = Val [VDict unrelated_entry; VDict fresh_entry; VInt 7]
  /\ merge_models [VDict unrelated_entry; VInt 7; VDict earlier_entry]
       (VDict fresh_entry) shared_path
     = Exn AttributeError.
Proof.
  assert (Hpre : Forall (passes shared_path) [VDict unrelated_entry]).
  { repeat constructor. exists (VStr "models/bob/other"). by split. }
  split.
  - apply (merge_models_stops_at_first_match [VDict unrelated_entry] [VInt 7]
             (VDict earlier_entry) (VDict fresh_entry) shared_path Hpre).
    exists (VStr shared_path). by split.
  - apply (merge_models_stops_at_first_match [VDict unrelated_entry]
             [VDict earlier_entry] (VInt 7) (VDict fresh_entry) shared_path
             Hpre).
    intros d. discriminate.
Defined.

(** Metadata without tags. *)
Lemma update_model_map_needs_every_key_witness :
  update_model_map (L := sample_lib) (W := merge_world)
    (VDict [("name", VStr "My Model"); ("author", VStr "alice")])
    (VStr "alice") "my-model" merge_branch []
  = (Val false, [catalog_get (L := sample_lib) (W := merge_world) merge_branch]).
Proof.
  apply (update_model_map_needs_every_key (L := sample_lib) (W := merge_world)
           _ _ _ _ _ "tags").
  - right. right. right. by left.
  - intros x. discriminate.
Defined.

(** A library that reads the text [[]] as the empty list. *)
Definition list_lib : PyLib := {|
  repr := show_value;
  json_dumps := show_value;
  json_loads := fun s => if String.eqb s "[]" then Some (VList []) else None;
  b64encode := fun s => s;
  b64decode_utf8 := fun v =>
    match v with
    | VStr s => Val s
    | _ => Exn TypeError
    end;
  exn_message := fun _ => "error"
|}.

(** A catalog file that holds a list where the object should be. *)
Definition list_catalog : value :=
  VDict [("content", VStr "[]"); ("sha", VStr "9e2f1c")].

Lemma update_model_map_keeps_unusable_catalog_witness :
  update_model_map (L := list_lib) (W := alice true (Some list_catalog))
    (VDict sample_metadata) (VStr "alice") "my-model" merge_branch []
  = (Val false,
     [catalog_get (L := list_lib) (W := alice true (Some list_catalog))
        merge_branch]).
Proof.
  apply (update_model_map_keeps_unusable_catalog (L := list_lib)
           (W := alice true (Some list_catalog))
           (VDict sample_metadata) (VStr "alice") "my-model" merge_branch []
           (response_with 200 (Some list_catalog))
           [("content", VStr "[]"); ("sha", VStr "9e2f1c")]
           "[]" (VStr "[]") (VList [])); try reflexivity.
  apply not_an_object. intros d. discriminate.
Defined.


Lemma get_github_username_fails_closed_witness :
  get_github_username (L := sample_lib)
    (W := sample_world None (service true None)) []
  = (Val VNone, [])
  /\ fst (get_github_username (L := sample_lib) (W := scripted []) [])
     = Val VNone
  /\ fst (get_github_username (L := sample_lib) (W := alice true None) [])
     = Val (VStr "alice").
Proof.
  split; [|split].
  - by apply (get_github_username_fails_closed (L := sample_lib)
                (W := sample_world None (service true None)) []).
  - destruct (get_github_username_fails_closed (L := sample_lib)
                (W := scripted []) []) as [_ Hrun].
    destruct (Hrun eq_refl) as (login & Hlogin & _). reflexivity.
  - destruct (get_github_username_fails_closed (L := sample_lib)
                (W := alice true None) []) as [_ Hrun].
    destruct (Hrun eq_refl) as (login & Hlogin & _). reflexivity.
Defined.

Lemma generated_metadata_makes_entry_witness :
  exists e,
    model_entry_of (L := sample_lib) direct_metadata (VStr "alice") "my-model"
    = Val (VDict e)
    /\ map fst e = entry_keys.
Proof.
  destruct (generated_metadata_makes_entry (L := sample_lib) (W := direct_world)
              "My Model" (VStr "A small model")
              (tags_list_for (VStr "nlp, small")) (VStr "bafybeigdyrzt")
              (VStr "./my-model") [] direct_metadata (VStr "alice") "my-model"
              [user_get (L := sample_lib) (W := direct_world)])
    as (e & Hentry & Hkeys & _).
  - reflexivity.
  - by exists e.
Defined.

Lemma generated_metadata_makes_readme_witness :
  String.prefix ("# My Model" +:+ newline) direct_readme = true.
Proof.
  destruct (generated_metadata_makes_readme (L := sample_lib)
              (W := direct_world)
              "My Model" (VStr "A small model") (VStr "bafybeigdyrzt")
              (VStr "./my-model") [VStr "nlp"; VStr "small"] [] direct_metadata
              [user_get (L := sample_lib) (W := direct_world)])
    as (readme_content & Hreadme & Hprefix).
  - reflexivity.
  - unfold direct_readme. rewrite Hreadme. exact Hprefix.
Defined.

Lemma create_model_pr_needs_identity_witness :
  create_model_pr (L := sample_lib)
    (W := sample_world None (service true None))
    "My Model" (VStr "A small model") (VStr "nlp, small")
    (VStr "bafybeigdyrzt") (VStr "./my-model") []
  = (Val VNone, [])
  /\ create_model_pr (L := sample_lib) (W := scripted [])
       "My Model" (VStr "A small model") (VStr "nlp, small")
       (VStr "bafybeigdyrzt") (VStr "./my-model") []
     = (Val VNone, [user_get (L := sample_lib) (W := scripted [])]).
Proof.
  split.
  - by apply (create_model_pr_needs_identity (L := sample_lib)
                (W := sample_world None (service true None))).
  - destruct (create_model_pr_needs_identity (L := sample_lib)
                (W := scripted [])
                "My Model" (VStr "A small model") (VStr "nlp, small")
                (VStr "bafybeigdyrzt") (VStr "./my-model") []) as [_ Hrun].
    by destruct (Hrun VNone [user_get (L := sample_lib) (W := scripted [])]
                   eq_refl eq_refl eq_refl).
Defined.

Lemma returned_url_is_pull_request_witness :
  pull_request_made (L := sample_lib) (W := direct_world) [] (snd direct_run)
    (VStr "https://github.com/octofacehub/octofacehub.github.io/pull/7")
  /\ pull_request_made (L := sample_lib) (W := direct_world) []
       (snd wrapper_run)
       (VStr "https://github.com/octofacehub/octofacehub.github.io/pull/7").
Proof.
  split.
  - destruct (returned_url_is_pull_request (L := sample_lib)
                (W := direct_world) []
                (VStr "https://github.com/octofacehub/octofacehub.github.io/pull/7")
                (snd direct_run) eq_refl) as [Hdirect _].
    apply (Hdirect "My Model" (VStr "A small model") (VStr "nlp, small")
             (VStr "bafybeigdyrzt") (VStr "./my-model")).
    reflexivity.
  - destruct (returned_url_is_pull_request (L := sample_lib)
                (W := direct_world) []
                (VStr "https://github.com/octofacehub/octofacehub.github.io/pull/7")
                (snd wrapper_run) eq_refl) as [_ Hwrapper].
    apply (Hwrapper "My Model" sample_metadata direct_readme).
    reflexivity.
Defined.


Lemma no_push_run_spares_upstream_witness :
  Forall spares_upstream (snd fork_run).
Proof.
  apply (no_push_run_spares_upstream (L := sample_lib) (W := alice false None)
           "My Model" (VStr "A small model") (VStr "nlp, small")
           (VStr "bafybeigdyrzt") (VStr "./my-model") []
           (VStr "alice") (VBool false)
           [user_get (L := sample_lib) (W := alice false None)]
           [repo_get (L := sample_lib) (W := alice false None)]
           (fst fork_run) (snd fork_run)).
  - reflexivity.
  - reflexivity.
  - reflexivity.
  - discriminate.
  - reflexivity.
  - reflexivity.
  - apply surjective_pairing.
Defined.


(** *** Sample machines *)

Definition completed (code : Z) (out : string) : spawned :=
  Completed {| returncode := code; stdout := out; stderr := "" |}.

(** A machine on which w3 is installed and logged in, with no space
    yet. *)
Definition logged_in_machine : Shell := {|
  subprocess_run := fun _ argv =>
    match argv with
    | ["w3"; "did"] => completed 0 "did:key:z6MkhaXgBZDvotDkL5257faiztiGiC2QtKLGpbnnEGta2doK"
    | _ => completed 0 ""
    end;
  spawn_message := fun _ => "error"
|}.


Lemma setup_w3_space_needs_login_witness :
  fst (setup_w3 (S := logged_in_machine) None []) = Returns tt
  /\ Forall (fun a => is_login a = false)
       (snd (setup_w3 (S := logged_in_machine) None [])).
Proof.
  split; [reflexivity|].
  apply (setup_w3_space_needs_login (S := logged_in_machine) None []
           (fst (setup_w3 (S := logged_in_machine) None []))).
  - apply surjective_pairing.
  - apply Exists_exists. exists (Spawn create_argv). split; [|reflexivity].
    vm_compute. repeat (first [left; reflexivity | right]).
Defined.

